(** * CodeBERT embedding service (services/codebert/main.py,
      services/codebert/download_model.py)

    A shallow embedding of the FastAPI service: its module globals
    ([model], [tokenizer], [device]), the loader [load_model], the two
    inference helpers [generate_embedding] and [generate_batch_embeddings],
    and the four handlers [health_check], [embed_text], [embed_batch] and
    [root].

    What the service delegates to torch and transformers is not code of the
    repository: a tokenizer and a model are callables held in the globals,
    a tensor is a shape together with an indexing function, and the
    floating-point scalars are an abstract type with the two operations
    that [Tensor.mean] needs.  Logging has no influence on any value and is
    left out.

    The build-time script is embedded as [download_model], with
    [snapshot_download] and [os.path.exists] as functions and what it
    prints as a list. *)

From Stdlib Require Import String Ascii ZArith QArith Lia Bool List.
Import ListNotations.

Local Open Scope string_scope.
Local Open Scope list_scope.
Local Open Scope Z_scope.

(** ** Scalars and tensors *)

(** The element type of a float tensor, with what [mean] uses. *)
Class Scalar (F : Type) : Type := {
  fzero : F;
  fadd : F -> F -> F;
  fdiv : F -> F -> F;
  of_count : nat -> F
}.

(** Exact rationals, used to run the service on small models. *)
#[export] Instance Q_scalar : Scalar Q := {
  fzero := 0%Q;
  fadd := Qplus;
  fdiv := Qdiv;
  of_count := fun n => inject_Z (Z.of_nat n)
}.

(** A 2-d tensor: [size0 x size1]. *)
Record tensor2 (A : Type) : Type := mk_tensor2 {
  size0 : nat;
  size1 : nat;
  at2 : nat -> nat -> A
}.
Arguments mk_tensor2 {A} _ _ _.
Arguments size0 {A} _.
Arguments size1 {A} _.
Arguments at2 {A} _ _ _.

(** A 3-d tensor: [dim0 x dim1 x dim2] (batch, sequence position, hidden). *)
Record tensor3 (A : Type) : Type := mk_tensor3 {
  dim0 : nat;
  dim1 : nat;
  dim2 : nat;
  at3 : nat -> nat -> nat -> A
}.
Arguments mk_tensor3 {A} _ _ _ _.
Arguments dim0 {A} _.
Arguments dim1 {A} _.
Arguments dim2 {A} _.
Arguments at3 {A} _ _ _ _.

Definition fsum {F} `{Scalar F} (l : list F) : F := fold_left fadd l fzero.

(** The arithmetic mean of a list of scalars: its sum over its length. *)
Definition arithmetic_mean {F} `{Scalar F} (l : list F) : F :=
  fdiv (fsum l) (of_count (length l)).

(** The entries of [t] at batch row [b] and hidden index [h], one per
    sequence position. *)
Definition along_dim1 {A} (t : tensor3 A) (b h : nat) : list A :=
  map (fun s => at3 t b s h) (seq 0 (dim1 t)).

(** [t.mean(dim=1)]: the sequence axis is averaged away. *)
Definition mean_dim1 {F} `{Scalar F} (t : tensor3 F) : tensor2 F :=
  mk_tensor2 (dim0 t) (dim2 t)
    (fun b h => fdiv (fsum (along_dim1 t b h)) (of_count (dim1 t))).

(** Row [b] of a 2-d tensor as a list. *)
Definition row {A} (t : tensor2 A) (b : nat) : list A :=
  map (fun j => at2 t b j) (seq 0 (size1 t)).

(** [t.cpu().tolist()] on a 2-d tensor. *)
Definition tolist {A} (t : tensor2 A) : list (list A) :=
  map (row t) (seq 0 (size0 t)).

(** ** Exceptions *)

Inductive exn : Type :=
| RuntimeError (msg : string)
| IndexError (msg : string)
| LibraryError (cls : string) (msg : string).

(** [str(e)]. *)
Definition str (e : exn) : string :=
  match e with
  | RuntimeError msg => msg
  | IndexError msg => msg
  | LibraryError _ msg => msg
  end.

(** ** The external collaborators *)

(** What the tokenizer returns: [input_ids] and [attention_mask]. *)
Record BatchEncoding : Type := mk_encoding {
  input_ids : tensor2 Z;
  attention_mask : tensor2 Z
}.

(** The tokenizer is called on one string or on a list of strings. *)
Inductive tok_input : Type :=
| Single (text : string)
| Batch (texts : list string).

(** [tokenizer(x, return_tensors="pt", padding=True, truncation=True,
    max_length=max_length)]. *)
Definition TokenizerT : Type := tok_input -> option Z -> exn + BatchEncoding.

Inductive torch_device : Type := cuda | mps | cpu.

(** A loaded encoder: its configuration, its forward pass, which returns
    [last_hidden_state], and the two calls [load_model] makes on it,
    [model.to(device)] and [model.eval()], which may raise. *)
Record ModelT (F : Type) : Type := mk_model {
  hidden_size : nat;
  max_position_embeddings : nat;
  forward : BatchEncoding -> exn + tensor3 F;
  model_to : option torch_device -> exn + unit;
  model_eval : exn + unit
}.
Arguments mk_model {F} _ _ _ _ _.
Arguments hidden_size {F} _.
Arguments max_position_embeddings {F} _.
Arguments forward {F} _ _.
Arguments model_to {F} _ _.
Arguments model_eval {F} _.

(** [str(device)]; the global is [None] before [load_model] ran. *)
Definition str_device (d : option torch_device) : string :=
  match d with
  | Some cuda => "cuda"
  | Some mps => "mps"
  | Some cpu => "cpu"
  | None => "None"
  end.

(** [torch.cuda.is_available()] and [torch.backends.mps.is_available()]. *)
Record Hardware : Type := mk_hardware {
  cuda_is_available : bool;
  mps_is_available : bool
}.

(** [AutoTokenizer.from_pretrained] and [AutoModel.from_pretrained]. *)
Record Hub (F : Type) : Type := mk_hub {
  AutoTokenizer_from_pretrained : string -> exn + TokenizerT;
  AutoModel_from_pretrained : string -> exn + ModelT F
}.
Arguments mk_hub {F} _ _.
Arguments AutoTokenizer_from_pretrained {F} _ _.
Arguments AutoModel_from_pretrained {F} _ _.

(** [os.environ] *)
Definition environ : Type := list (string * string).

Fixpoint getenv (env : environ) (key default : string) : string :=
  match env with
  | [] => default
  | (k, v) :: rest => if String.eqb k key then v else getenv rest key default
  end.

(** ** The module globals and computations over them *)

Record Globals (F : Type) : Type := mk_globals {
  model : option (ModelT F);
  tokenizer : option TokenizerT;
  device : option torch_device
}.
Arguments mk_globals {F} _ _ _.
Arguments model {F} _.
Arguments tokenizer {F} _.
Arguments device {F} _.

(** The globals as the module body leaves them. *)
Definition initial_globals {F} : Globals F := mk_globals None None None.

(** A computation that reads and writes the globals and either returns a
    value or raises an [E]. *)
Definition Py (F E A : Type) : Type := Globals F -> (E + A) * Globals F.

Definition ret {F E A} (a : A) : Py F E A := fun g => (inr a, g).

Definition raise {F E A} (e : E) : Py F E A := fun g => (inl e, g).

Definition bind {F E A B} (c : Py F E A) (k : A -> Py F E B) : Py F E B :=
  fun g =>
    match c g with
    | (inr a, g') => k a g'
    | (inl e, g') => (inl e, g')
    end.

(** [try: c  except Exception as e: handler e]; the handler may raise in
    another exception type. *)
Definition try_except {F E E' A} (c : Py F E A) (handler : E -> Py F E' A)
  : Py F E' A :=
  fun g =>
    match c g with
    | (inr a, g') => (inr a, g')
    | (inl e, g') => handler e g'
    end.

(** The result of a call into a library. *)
Definition lift {F E A} (r : E + A) : Py F E A := fun g => (r, g).

Definition get_model {F E} : Py F E (option (ModelT F)) :=
  fun g => (inr (model g), g).
Definition get_tokenizer {F E} : Py F E (option TokenizerT) :=
  fun g => (inr (tokenizer g), g).
Definition get_device {F E} : Py F E (option torch_device) :=
  fun g => (inr (device g), g).

Definition set_model {F E} (m : ModelT F) : Py F E unit :=
  fun g => (inr tt, mk_globals (Some m) (tokenizer g) (device g)).
Definition set_tokenizer {F E} (t : TokenizerT) : Py F E unit :=
  fun g => (inr tt, mk_globals (model g) (Some t) (device g)).
Definition set_device {F E} (d : torch_device) : Py F E unit :=
  fun g => (inr tt, mk_globals (model g) (tokenizer g) (Some d)).

Declare Scope py_scope.
Delimit Scope py_scope with py.
Notation "x <- c ;; k" := (bind c (fun x => k))
  (at level 61, c at next level, right associativity) : py_scope.
Notation "c ;;; k" := (bind c (fun _ => k))
  (at level 61, right associativity) : py_scope.
Local Open Scope py_scope.

(** ** Request and response models *)

Record EmbeddingRequest : Type := mk_EmbeddingRequest {
  text : string;
  max_length : option Z
}.

Record BatchEmbeddingRequest : Type := mk_BatchEmbeddingRequest {
  texts : list string;
  batch_max_length : option Z
}.

Record EmbeddingResponse (F : Type) : Type := mk_EmbeddingResponse {
  embedding : list F;
  dimension : Z
}.
Arguments mk_EmbeddingResponse {F} _ _.
Arguments embedding {F} _.
Arguments dimension {F} _.

Record BatchEmbeddingResponse (F : Type) : Type := mk_BatchEmbeddingResponse {
  embeddings : list (list F);
  batch_dimension : Z;
  count : Z
}.
Arguments mk_BatchEmbeddingResponse {F} _ _ _.
Arguments embeddings {F} _.
Arguments batch_dimension {F} _.
Arguments count {F} _.

Record HealthResponse : Type := mk_HealthResponse {
  health_status : string;
  health_model : string;
  health_device : string;
  health_dimension : Z
}.

(** What leaves a handler other than its response: an [HTTPException]
    raised by the handler, or an exception nothing caught. *)
Inductive handler_error : Type :=
| HTTPException (status_code : Z) (detail : string)
| Uncaught (e : exn).

(** The JSON value [root] returns. *)
#[local] Set Warnings "-register-all".
Inductive json : Type :=
| JString (s : string)
| JObject (fields : list (string * json)).

(** [len(l)] *)
Definition len {A} (l : list A) : Z := Z.of_nat (length l).

(** ** Model initialisation *)

(** [load_model()]: the globals are assigned one after the other, so a
    failing call leaves the earlier ones set.  [model.to(device)] and
    [model.eval()] run once the model global is assigned. *)
Definition load_model {F} (env : environ) (hw : Hardware) (hub : Hub F)
  : Py F exn (ModelT F * TokenizerT) :=
  let model_name := getenv env "MODEL_NAME" "microsoft/codebert-base" in
  (if cuda_is_available hw then set_device cuda
   else if mps_is_available hw then set_device mps
   else set_device cpu) ;;;
  tok <- lift (AutoTokenizer_from_pretrained hub model_name) ;;
  set_tokenizer tok ;;;
  mdl <- lift (AutoModel_from_pretrained hub model_name) ;;
  set_model mdl ;;;
  d <- get_device ;;
  lift (model_to mdl d) ;;;
  lift (model_eval mdl) ;;;
  ret (mdl, tok).

(** ** Inference *)

(** [{k: v.to(device) for k, v in inputs.items()}]: the values are moved,
    not changed. *)
Definition to_device (d : option torch_device) (inputs : BatchEncoding)
  : BatchEncoding :=
  mk_encoding (input_ids inputs) (attention_mask inputs).

(** [t[0]] on a 2-d tensor, then [.cpu().tolist()]. *)
Definition first_row {F A} (t : tensor2 A) : Py F exn (list A) :=
  match size0 t with
  | O => raise (IndexError "index 0 is out of bounds for dimension 0 with size 0")
  | S _ => ret (row t 0)
  end.

Definition generate_embedding {F} `{Scalar F}
  (text : string) (max_length : option Z) : Py F exn (list F) :=
  m <- get_model ;;
  t <- get_tokenizer ;;
  match m, t with
  | Some mdl, Some tok =>
      inputs <- lift (tok (Single text) max_length) ;;
      d <- get_device ;;
      let inputs := to_device d inputs in
      outputs <- lift (forward mdl inputs) ;;
      let embeddings := mean_dim1 outputs in
      first_row embeddings
  | _, _ => raise (RuntimeError "Model not loaded")
  end.

Definition generate_batch_embeddings {F} `{Scalar F}
  (texts : list string) (max_length : option Z) : Py F exn (list (list F)) :=
  m <- get_model ;;
  t <- get_tokenizer ;;
  match m, t with
  | Some mdl, Some tok =>
      inputs <- lift (tok (Batch texts) max_length) ;;
      d <- get_device ;;
      let inputs := to_device d inputs in
      outputs <- lift (forward mdl inputs) ;;
      let embeddings := mean_dim1 outputs in
      ret (tolist embeddings)
  | _, _ => raise (RuntimeError "Model not loaded")
  end.

(** ** The handlers *)

(** An exception that leaves a handler outside any [try]. *)
Definition propagate {F A} (c : Py F exn A) : Py F handler_error A :=
  try_except c (fun e => raise (Uncaught e)).

Definition health_check {F} `{Scalar F} : Py F handler_error HealthResponse :=
  m <- get_model ;;
  match m with
  | None => raise (HTTPException 503 "Model not loaded")
  | Some _ =>
      test_embedding <- propagate (generate_embedding "test" (Some 512)) ;;
      d <- get_device ;;
      ret (mk_HealthResponse "healthy" "microsoft/codebert-base"
             (str_device d) (len test_embedding))
  end.

Definition embed_text {F} `{Scalar F} (request : EmbeddingRequest)
  : Py F handler_error (EmbeddingResponse F) :=
  try_except
    (embedding <- generate_embedding (text request) (max_length request) ;;
     ret (mk_EmbeddingResponse embedding (len embedding)))
    (fun e => raise (HTTPException 500 (str e))).

Definition embed_batch {F} `{Scalar F} (request : BatchEmbeddingRequest)
  : Py F handler_error (BatchEmbeddingResponse F) :=
  try_except
    (if len (texts request) =? 0
     then ret (mk_BatchEmbeddingResponse [] 768 0)
     else
       embeddings <-
         generate_batch_embeddings (texts request) (batch_max_length request) ;;
       ret (mk_BatchEmbeddingResponse embeddings
              (match embeddings with
               | e0 :: _ => len e0
               | [] => 768
               end)
              (len embeddings)))
    (fun e => raise (HTTPException 500 (str e))).

Definition root_body : json :=
  JObject
    [("service", JString "CodeBERT Embedding Service");
     ("version", JString "1.0.0");
     ("endpoints",
      JObject [("health", JString "/health");
               ("embed", JString "/embed");
               ("embed_batch", JString "/embed/batch")])].

Definition root {F} : Py F handler_error json := ret root_body.

(** ** The routes *)

Inductive Request : Type :=
| GET_root
| GET_health
| POST_embed (request : EmbeddingRequest)
| POST_embed_batch (request : BatchEmbeddingRequest).

Inductive Response (F : Type) : Type :=
| RootResponse (r : handler_error + json)
| HealthCheckResponse (r : handler_error + HealthResponse)
| EmbedResponse (r : handler_error + EmbeddingResponse F)
| EmbedBatchResponse (r : handler_error + BatchEmbeddingResponse F).
Arguments RootResponse {F} _.
Arguments HealthCheckResponse {F} _.
Arguments EmbedResponse {F} _.
Arguments EmbedBatchResponse {F} _.

(** One request served on the globals [g]. *)
Definition handle {F} `{Scalar F} (rq : Request) (g : Globals F)
  : Response F * Globals F :=
  match rq with
  | GET_root => let (r, g') := root g in (RootResponse r, g')
  | GET_health => let (r, g') := health_check g in (HealthCheckResponse r, g')
  | POST_embed request =>
      let (r, g') := embed_text request g in (EmbedResponse r, g')
  | POST_embed_batch request =>
      let (r, g') := embed_batch request g in (EmbedBatchResponse r, g')
  end.

(** The requests of a run served one after the other. *)
Fixpoint serve {F} `{Scalar F} (rqs : list Request) (g : Globals F)
  : list (Response F) * Globals F :=
  match rqs with
  | [] => ([], g)
  | rq :: rest =>
      let (r, g') := handle rq g in
      let (rs, g'') := serve rest g' in
      (r :: rs, g'')
  end.

(** [lifespan]: the model is loaded before the first request is served;
    when loading raises, the application does not start. *)
Definition lifespan {F} `{Scalar F} (env : environ) (hw : Hardware)
  (hub : Hub F) (rqs : list Request) : exn + list (Response F) :=
  match load_model env hw hub initial_globals with
  | (inr _, g) => inr (fst (serve rqs g))
  | (inl e, _) => inl e
  end.

(** ** What the service expects of its collaborators *)

(** The tokenizer on one non-empty text with a bound of at least one
    token: one row, at least one and at most [max_length] positions. *)
Definition tokenizer_contract (tok : TokenizerT) : Prop :=
  forall (txt : string) (ml : Z),
    txt <> "" -> 1 <= ml ->
    exists enc,
      tok (Single txt) (Some ml) = inr enc /\
      size0 (input_ids enc) = 1%nat /\
      (1 <= size1 (input_ids enc))%nat /\
      Z.of_nat (size1 (input_ids enc)) <= ml.

(** The encoder on a batch that fits its position table: one hidden vector
    of [hidden_size] entries per row and position. *)
Definition model_contract {F} (mdl : ModelT F) : Prop :=
  forall enc : BatchEncoding,
    (size1 (input_ids enc) <= max_position_embeddings mdl)%nat ->
    exists out,
      forward mdl enc = inr out /\
      dim0 out = size0 (input_ids enc) /\
      dim1 out = size1 (input_ids enc) /\
      dim2 out = hidden_size mdl.

(** Row [b1] of [enc1] and row [b2] of [enc2] hold the same tokens under
    the same mask. *)
Definition same_row (enc1 : BatchEncoding) (b1 : nat)
  (enc2 : BatchEncoding) (b2 : nat) : Prop :=
  row (input_ids enc1) b1 = row (input_ids enc2) b2 /\
  row (attention_mask enc1) b1 = row (attention_mask enc2) b2.

(** The encoder treats the rows of a batch independently of each other. *)
Definition rowwise {F} (mdl : ModelT F) : Prop :=
  forall enc1 enc2 out1 out2 b1 b2,
    forward mdl enc1 = inr out1 ->
    forward mdl enc2 = inr out2 ->
    same_row enc1 b1 enc2 b2 ->
    dim1 out1 = dim1 out2 /\
    dim2 out1 = dim2 out2 /\
    forall s h, (s < dim1 out1)%nat -> at3 out1 b1 s h = at3 out2 b2 s h.

(** An exception [e] is raised while [x] is tokenized or while its
    encoding goes through the forward pass. *)
Definition raised_during_inference {F} (mdl : ModelT F) (tok : TokenizerT)
  (x : tok_input) (ml : option Z) (e : exn) : Prop :=
  tok x ml = inl e \/
  exists enc, tok x ml = inr enc /\ forward mdl enc = inl e.

(** Why an inference helper raises [e] on [x]: the model or the tokenizer
    is missing and [e] is the helper's own [RuntimeError], or both are
    loaded and [e] comes out of the tokenizer or the forward pass. *)
Definition inference_failure {F} (g : Globals F) (x : tok_input)
  (ml : option Z) (e : exn) : Prop :=
  ((model g = None \/ tokenizer g = None) /\
   e = RuntimeError "Model not loaded") \/
  (exists mdl tok,
     model g = Some mdl /\ tokenizer g = Some tok /\
     raised_during_inference mdl tok x ml e).

(** The hidden state of [x] has no row for [embeddings[0]] to take. *)
Definition no_first_row {F} (g : Globals F) (x : tok_input) (ml : option Z)
  (e : exn) : Prop :=
  exists mdl tok enc out,
    model g = Some mdl /\ tokenizer g = Some tok /\
    tok x ml = inr enc /\ forward mdl enc = inr out /\ dim0 out = O /\
    e = IndexError "index 0 is out of bounds for dimension 0 with size 0".

(** The vector that mean pooling assigns to batch row [b] of a hidden
    state. *)
Definition pooled {F} `{Scalar F} (out : tensor3 F) (b : nat) : list F :=
  map (fun h => arithmetic_mean (along_dim1 out b h)) (seq 0 (dim2 out)).

(** ** A small tokenizer and a small encoder to run the service on *)

Definition tiny_pad_id : Z := 1.

(** One token per character, cut at [n] tokens. *)
Definition tiny_encode (n : nat) (s : string) : list Z :=
  firstn n (map (fun c => Z.of_nat (nat_of_ascii c)) (list_ascii_of_string s)).

(** Pads every row to the longest one and masks the padding. *)
Definition tiny_encoding (x : tok_input) (ml : option Z) : BatchEncoding :=
  let n := match ml with Some z => Z.to_nat z | None => 8%nat end in
  let rows :=
    map (tiny_encode n) (match x with Single t => [t] | Batch ts => ts end) in
  let width := list_max (map (@length Z) rows) in
  mk_encoding
    (mk_tensor2 (length rows) width
       (fun b s => nth s (nth b rows []) tiny_pad_id))
    (mk_tensor2 (length rows) width
       (fun b s => if (s <? length (nth b rows []))%nat then 1 else 0)).

Definition tiny_tokenizer : TokenizerT :=
  fun x ml => inr (tiny_encoding x ml).

(** A tokenizer that always fails. *)
Definition failing_tokenizer : TokenizerT :=
  fun _ _ => inl (LibraryError "ValueError" "text input must be of type str").

(** The hidden vector at a position is read off the token there. *)
Definition tiny_hidden (hidden : nat) (enc : BatchEncoding) : tensor3 Q :=
  let ids := input_ids enc in
  mk_tensor3 (size0 ids) (size1 ids) hidden
    (fun b s h => inject_Z (at2 ids b s + Z.of_nat h)).

Definition tiny_model (hidden maxpos : nat) : ModelT Q :=
  mk_model hidden maxpos
    (fun enc =>
       if (size1 (input_ids enc) <=? maxpos)%nat
       then inr (tiny_hidden hidden enc)
       else inl (LibraryError "RuntimeError"
                   "sequence longer than the position table"))
    (fun _ => inr tt)
    (inr tt).

(** The small encoder on a machine where it cannot be moved to the
    device. *)
Definition unplaceable_model : ModelT Q :=
  mk_model 2 8 (forward (tiny_model 2 8))
    (fun _ => inl (LibraryError "RuntimeError" "out of memory"))
    (inr tt).

(** A hub that delivers the tokenizer and that encoder. *)
Definition unplaceable_hub : Hub Q :=
  mk_hub (fun _ => inr tiny_tokenizer) (fun _ => inr unplaceable_model).

(** A hub with two encoders: a stand-in for the default model, with its
    768 hidden units, and a smaller one under another name. *)
Definition tiny_hub : Hub Q :=
  mk_hub
    (fun name =>
       if String.eqb name "microsoft/codebert-base" then inr tiny_tokenizer
       else if String.eqb name "tiny/encoder" then inr tiny_tokenizer
       else inl (LibraryError "OSError" "not a valid model identifier"))
    (fun name =>
       if String.eqb name "microsoft/codebert-base" then inr (tiny_model 768 512)
       else if String.eqb name "tiny/encoder" then inr (tiny_model 2 8)
       else inl (LibraryError "OSError" "not a valid model identifier")).

(** The globals once the small encoder is loaded on a CPU. *)
Definition tiny_globals : Globals Q :=
  mk_globals (Some (tiny_model 2 8)) (Some tiny_tokenizer) (Some cpu).

(** The globals with a tokenizer that fails on every input. *)
Definition broken_globals : Globals Q :=
  mk_globals (Some (tiny_model 2 8)) (Some failing_tokenizer) (Some cpu).

(** A deployment configured for another model than the default one. *)
Definition custom_environ : environ := [("MODEL_NAME", "tiny/encoder")].

Definition no_accelerator : Hardware := mk_hardware false false.

(** The globals after [load_model] ran in that deployment. *)
Definition loaded_globals : Globals Q :=
  snd (load_model custom_environ no_accelerator tiny_hub initial_globals).

(** A hub whose tokenizer files are there while the weights are not. *)
Definition weights_missing_hub : Hub Q :=
  mk_hub (fun _ => inr tiny_tokenizer)
    (fun _ => inl (LibraryError "OSError" "no file named pytorch_model.bin")).

(** A deployment that names a model the hub does not hold. *)
Definition unknown_environ : environ := [("MODEL_NAME", "unknown/model")].

(** The globals with a stand-in for the default model: 768 hidden units
    and 512 positions. *)
Definition default_globals : Globals Q :=
  mk_globals (Some (tiny_model 768 512)) (Some tiny_tokenizer) (Some cpu).

(** ** The build-time download (services/codebert/download_model.py) *)

(** [os.path.join(a, b)] on POSIX paths. *)
Definition ends_with_slash (a : string) : bool :=
  match rev (list_ascii_of_string a) with
  | c :: _ => Ascii.eqb c "/"
  | [] => false
  end.

Definition path_join (a b : string) : string :=
  match b with
  | String c _ =>
      if Ascii.eqb c "/" then b
      else if String.eqb a "" then b
      else if ends_with_slash a then a ++ b
      else a ++ "/" ++ b
  | EmptyString =>
      if String.eqb a "" then b
      else if ends_with_slash a then a
      else a ++ "/"
  end.

(** What [download_model] prints, one constructor per [print]; the f-string
    arguments are the constructor's arguments. *)
Inductive printed : Type :=
| Downloading (model_name : string)
| DownloadingFiles
| DownloadSucceeded
| CacheDirectory (cache_dir : string)
| FilesNotFound (missing_files : list string)
| RequiredFilesVerified
| FoundWeights (model_file : string)
| WeightsNotFound
| WeightsNotFoundNote
| DownloadComplete (model_name : string)
| DownloadFailed (e : exn)
| ErrorDetails
| Traceback (e : exn).

(** The prints given [file=sys.stderr]; the others go to standard output. *)
Definition to_stderr (p : printed) : bool :=
  match p with
  | FilesNotFound _ | WeightsNotFound | WeightsNotFoundNote
  | DownloadFailed _ | ErrorDetails | Traceback _ => true
  | _ => false
  end.

(** How [download_model] ends: [return True] or [sys.exit(1)]. *)
Inductive ending : Type :=
| Returned (value : bool)
| SystemExit (code : Z).

Definition required_files : list string :=
  ["config.json"; "tokenizer_config.json"].

Definition model_files : list string :=
  ["pytorch_model.bin"; "model.safetensors"; "tf_model.h5"].

(** The first loop: the required files that do not exist, in order. *)
Definition missing_files (exists_ : string -> bool) (cache_dir : string)
  : list string :=
  filter (fun file => negb (exists_ (path_join cache_dir file))) required_files.

(** The second loop: the first weights file that exists, if any. *)
Definition found_model_file (exists_ : string -> bool) (cache_dir : string)
  : option string :=
  find (fun model_file => exists_ (path_join cache_dir model_file)) model_files.

(** [download_model()], given [snapshot_download] as a function of the
    repository id and [os.path.exists]. *)
Definition download_model (env : environ)
  (snapshot_download : string -> exn + string) (exists_ : string -> bool)
  : list printed * ending :=
  let model_name := getenv env "MODEL_NAME" "microsoft/codebert-base" in
  match snapshot_download model_name with
  | inr cache_dir =>
      ([Downloading model_name; DownloadingFiles;
        DownloadSucceeded; CacheDirectory cache_dir]
       ++ (match missing_files exists_ cache_dir with
           | [] => [RequiredFilesVerified]
           | missing => [FilesNotFound missing]
           end)
       ++ (match found_model_file exists_ cache_dir with
           | Some model_file => [FoundWeights model_file]
           | None => [WeightsNotFound; WeightsNotFoundNote]
           end)
       ++ [DownloadComplete model_name],
       Returned true)
  | inl e =>
      ([Downloading model_name; DownloadingFiles;
        DownloadFailed e; ErrorDetails; Traceback e],
       SystemExit 1)
  end.

(** A cache that holds the configuration and two kinds of weights, and no
    tokenizer configuration. *)
Definition tiny_cache (path : string) : bool :=
  existsb (String.eqb path)
    ["/cache/tiny/config.json"; "/cache/tiny/model.safetensors";
     "/cache/tiny/tf_model.h5"].

Definition tiny_snapshot_download (repo_id : string) : exn + string :=
  if String.eqb repo_id "tiny/encoder" then inr "/cache/tiny"
  else inl (LibraryError "RepositoryNotFoundError" "404 Client Error").

(** ** Facts about tensors and pooling *)

Lemma to_device_same (d : option torch_device) (inputs : BatchEncoding) :
  to_device d inputs = inputs.
Proof. destruct inputs; reflexivity. Qed.

Lemma length_along_dim1 {A} (t : tensor3 A) (b h : nat) :
  length (along_dim1 t b h) = dim1 t.
Proof. unfold along_dim1. now rewrite length_map, length_seq. Qed.

Lemma row_mean_dim1 {F} `{Scalar F} (out : tensor3 F) (b : nat) :
  row (mean_dim1 out) b = pooled out b.
Proof.
  unfold row, pooled, arithmetic_mean; cbn.
  apply map_ext; intro h.
  now rewrite length_along_dim1.
Qed.

Lemma tolist_mean_dim1 {F} `{Scalar F} (out : tensor3 F) :
  tolist (mean_dim1 out) = map (pooled out) (seq 0 (dim0 out)).
Proof.
  unfold tolist; cbn [mean_dim1 size0].
  apply map_ext; intro b. apply row_mean_dim1.
Qed.

Lemma length_pooled {F} `{Scalar F} (out : tensor3 F) (b : nat) :
  length (pooled out b) = dim2 out.
Proof. unfold pooled. now rewrite length_map, length_seq. Qed.

Lemma nth_error_pooled {F} `{Scalar F} (out : tensor3 F) (b h : nat) :
  (h < dim2 out)%nat ->
  nth_error (pooled out b) h = Some (arithmetic_mean (along_dim1 out b h)).
Proof.
  intro Hh. unfold pooled.
  rewrite nth_error_map, nth_error_nth' with (d := O)
    by (rewrite length_seq; exact Hh).
  now rewrite seq_nth.
Qed.

(** ** The inference helpers, case by case *)

Section Inference.
Context {F : Type} `{Scalar F}.
Variable g : Globals F.

Lemma generate_embedding_not_loaded (txt : string) (ml : option Z) :
  model g = None \/ tokenizer g = None ->
  generate_embedding txt ml g = (inl (RuntimeError "Model not loaded"), g).
Proof.
  unfold generate_embedding, bind, get_model, get_tokenizer, raise.
  intros [E | E]; rewrite E; [reflexivity | now destruct (model g)].
Qed.

Lemma generate_batch_embeddings_not_loaded (txts : list string) (ml : option Z) :
  model g = None \/ tokenizer g = None ->
  generate_batch_embeddings txts ml g
  = (inl (RuntimeError "Model not loaded"), g).
Proof.
  unfold generate_batch_embeddings, bind, get_model, get_tokenizer, raise.
  intros [E | E]; rewrite E; [reflexivity | now destruct (model g)].
Qed.

Variables (mdl : ModelT F) (tok : TokenizerT).
Hypothesis model_loaded : model g = Some mdl.
Hypothesis tokenizer_loaded : tokenizer g = Some tok.

Lemma generate_embedding_pooled txt ml enc out :
  tok (Single txt) ml = inr enc ->
  forward mdl enc = inr out ->
  dim0 out <> O ->
  generate_embedding txt ml g = (inr (pooled out 0), g).
Proof.
  intros Htok Hfwd Hrows.
  unfold generate_embedding, bind, get_model, get_tokenizer, get_device, lift.
  rewrite model_loaded, tokenizer_loaded, Htok, to_device_same, Hfwd.
  unfold first_row; cbn [mean_dim1 size0].
  destruct (dim0 out) as [| n] eqn:E; [contradiction |].
  unfold ret. now rewrite row_mean_dim1.
Qed.

Lemma generate_embedding_raises txt ml e :
  raised_during_inference mdl tok (Single txt) ml e ->
  generate_embedding txt ml g = (inl e, g).
Proof.
  unfold generate_embedding, bind, get_model, get_tokenizer, get_device, lift.
  rewrite model_loaded, tokenizer_loaded.
  intros [Htok | (enc & Htok & Hfwd)]; rewrite Htok; [reflexivity |].
  now rewrite to_device_same, Hfwd.
Qed.

Lemma generate_batch_embeddings_pooled txts ml enc out :
  tok (Batch txts) ml = inr enc ->
  forward mdl enc = inr out ->
  generate_batch_embeddings txts ml g
  = (inr (map (pooled out) (seq 0 (dim0 out))), g).
Proof.
  intros Htok Hfwd.
  unfold generate_batch_embeddings, bind, get_model, get_tokenizer,
    get_device, lift, ret.
  rewrite model_loaded, tokenizer_loaded, Htok, to_device_same, Hfwd.
  now rewrite tolist_mean_dim1.
Qed.

Lemma generate_batch_embeddings_raises txts ml e :
  raised_during_inference mdl tok (Batch txts) ml e ->
  generate_batch_embeddings txts ml g = (inl e, g).
Proof.
  unfold generate_batch_embeddings, bind, get_model, get_tokenizer,
    get_device, lift.
  rewrite model_loaded, tokenizer_loaded.
  intros [Htok | (enc & Htok & Hfwd)]; rewrite Htok; [reflexivity |].
  now rewrite to_device_same, Hfwd.
Qed.
End Inference.

(** No inference helper assigns a global. *)
Lemma generate_embedding_keeps_globals {F} `{Scalar F} txt ml (g : Globals F) :
  snd (generate_embedding txt ml g) = g.
Proof.
  unfold generate_embedding, bind, get_model, get_tokenizer, get_device,
    lift, raise, first_row, ret.
  destruct (model g) as [mdl |], (tokenizer g) as [tok |]; try reflexivity.
  destruct (tok (Single txt) ml) as [e | enc]; [reflexivity |].
  destruct (forward mdl (to_device (device g) enc)) as [e | out];
    [reflexivity |].
  now destruct (size0 (mean_dim1 out)).
Qed.

Lemma generate_batch_embeddings_keeps_globals {F} `{Scalar F}
  txts ml (g : Globals F) :
  snd (generate_batch_embeddings txts ml g) = g.
Proof.
  unfold generate_batch_embeddings, bind, get_model, get_tokenizer,
    get_device, lift, raise, ret.
  destruct (model g) as [mdl |], (tokenizer g) as [tok |]; try reflexivity.
  destruct (tok (Batch txts) ml) as [e | enc]; [reflexivity |].
  now destruct (forward mdl (to_device (device g) enc)).
Qed.

(** No handler assigns a global. *)
Lemma handle_keeps_globals {F} `{Scalar F} (rq : Request) (g : Globals F) :
  snd (handle rq g) = g.
Proof.
  destruct rq as [| | request | request]; cbn [handle].
  - reflexivity.
  - unfold health_check, bind, get_model, propagate, try_except, raise,
      get_device, ret.
    destruct (model g); [| reflexivity].
    pose proof (generate_embedding_keeps_globals "test" (Some 512) g) as K.
    destruct (generate_embedding "test" (Some 512) g) as [[e | v] g'];
      cbn in K |- *; exact K.
  - unfold embed_text, try_except, bind, ret, raise.
    pose proof (generate_embedding_keeps_globals
                  (text request) (max_length request) g) as K.
    destruct (generate_embedding (text request) (max_length request) g)
      as [[e | v] g']; cbn in K |- *; exact K.
  - unfold embed_batch, try_except, bind, ret, raise.
    destruct (len (texts request) =? 0); [reflexivity |].
    pose proof (generate_batch_embeddings_keeps_globals
                  (texts request) (batch_max_length request) g) as K.
    destruct (generate_batch_embeddings (texts request)
                (batch_max_length request) g) as [[e | v] g'];
      cbn in K |- *; exact K.
Qed.

Lemma serve_keeps_globals {F} `{Scalar F} (rqs : list Request) (g : Globals F) :
  snd (serve rqs g) = g.
Proof.
  revert g; induction rqs as [| rq rest IH]; intro g; [reflexivity |].
  cbn [serve].
  pose proof (handle_keeps_globals rq g) as K.
  destruct (handle rq g) as [r g']; cbn in K; subst g'.
  specialize (IH g).
  destruct (serve rest g) as [rs g'']; cbn in IH |- *; exact IH.
Qed.

(** [load_model] step by step. *)
Lemma load_model_eq {F} (env : environ) (hw : Hardware) (hub : Hub F)
  (g : Globals F) :
  load_model env hw hub g
  = let name := getenv env "MODEL_NAME" "microsoft/codebert-base" in
    let d := if cuda_is_available hw then cuda
             else if mps_is_available hw then mps else cpu in
    match AutoTokenizer_from_pretrained hub name with
    | inl e => (inl e, mk_globals (model g) (tokenizer g) (Some d))
    | inr tok =>
        match AutoModel_from_pretrained hub name with
        | inl e => (inl e, mk_globals (model g) (Some tok) (Some d))
        | inr mdl =>
            match model_to mdl (Some d) with
            | inl e => (inl e, mk_globals (Some mdl) (Some tok) (Some d))
            | inr _ =>
                match model_eval mdl with
                | inl e => (inl e, mk_globals (Some mdl) (Some tok) (Some d))
                | inr _ =>
                    (inr (mdl, tok), mk_globals (Some mdl) (Some tok) (Some d))
                end
            end
        end
    end.
Proof.
  unfold load_model, bind, lift, set_device, set_tokenizer, set_model,
    get_device, ret.
  destruct (cuda_is_available hw), (mps_is_available hw); cbn;
    destruct (AutoTokenizer_from_pretrained hub _) as [e | tok];
    try reflexivity;
    destruct (AutoModel_from_pretrained hub _) as [e | mdl];
    try reflexivity; cbn;
    destruct (model_to mdl _) as [e | u]; try reflexivity;
    destruct (model_eval mdl) as [e | u']; reflexivity.
Qed.

(** A [load_model] that returns has assigned both the model and the
    tokenizer, so a started application serves with both loaded. *)
Lemma load_model_loads_both {F} (env : environ) (hw : Hardware) (hub : Hub F)
  (g g' : Globals F) (loaded : ModelT F * TokenizerT) :
  load_model env hw hub g = (inr loaded, g') ->
  model g' = Some (fst loaded) /\ tokenizer g' = Some (snd loaded).
Proof.
  rewrite load_model_eq; cbv zeta.
  destruct (AutoTokenizer_from_pretrained hub _) as [e | tok];
    [discriminate |].
  destruct (AutoModel_from_pretrained hub _) as [e | mdl]; [discriminate |].
  destruct (model_to mdl _) as [e | u]; [discriminate |].
  destruct (model_eval mdl) as [e | u']; [discriminate |].
  intro E; injection E as <- <-; split; reflexivity.
Qed.

(** ** The handlers in terms of the helpers *)

Lemma len_nonempty {A} (l : list A) : l <> [] -> (len l =? 0) = false.
Proof.
  intro Hne. destruct l as [| a l]; [contradiction |].
  unfold len; cbn [length]. apply Z.eqb_neq. lia.
Qed.

Lemma embed_text_returns {F} `{Scalar F} request (g g' : Globals F) v :
  generate_embedding (text request) (max_length request) g = (inr v, g') ->
  embed_text request g = (inr (mk_EmbeddingResponse v (len v)), g').
Proof.
  intro E. unfold embed_text, try_except, bind, ret. now rewrite E.
Qed.

Lemma embed_text_reports {F} `{Scalar F} request (g g' : Globals F) e :
  generate_embedding (text request) (max_length request) g = (inl e, g') ->
  embed_text request g = (inl (HTTPException 500 (str e)), g').
Proof.
  intro E. unfold embed_text, try_except, bind, raise. now rewrite E.
Qed.

Lemma embed_batch_returns {F} `{Scalar F} request (g g' : Globals F) vs :
  texts request <> [] ->
  generate_batch_embeddings (texts request) (batch_max_length request) g
  = (inr vs, g') ->
  embed_batch request g
  = (inr (mk_BatchEmbeddingResponse vs
            (match vs with e0 :: _ => len e0 | [] => 768 end) (len vs)), g').
Proof.
  intros Hne E. unfold embed_batch, try_except, bind, ret.
  now rewrite (len_nonempty _ Hne), E.
Qed.

Lemma embed_batch_reports {F} `{Scalar F} request (g g' : Globals F) e :
  texts request <> [] ->
  generate_batch_embeddings (texts request) (batch_max_length request) g
  = (inl e, g') ->
  embed_batch request g = (inl (HTTPException 500 (str e)), g').
Proof.
  intros Hne E. unfold embed_batch, try_except, bind, raise.
  now rewrite (len_nonempty _ Hne), E.
Qed.

Lemma embed_batch_empty {F} `{Scalar F} ml (g : Globals F) :
  embed_batch (mk_BatchEmbeddingRequest [] ml) g
  = (inr (mk_BatchEmbeddingResponse [] 768 0), g).
Proof. reflexivity. Qed.

Lemma health_check_returns {F} `{Scalar F} (g : Globals F) mdl v :
  model g = Some mdl ->
  generate_embedding "test" (Some 512) g = (inr v, g) ->
  health_check g
  = (inr (mk_HealthResponse "healthy" "microsoft/codebert-base"
            (str_device (device g)) (len v)), g).
Proof.
  intros Hm E.
  unfold health_check, bind, get_model, propagate, try_except, get_device, ret.
  now rewrite Hm, E.
Qed.

(** ** The small tokenizer and encoder meet the contracts *)

Lemma tiny_encode_length (n : nat) (s : string) :
  length (tiny_encode n s) = Nat.min n (String.length s).
Proof.
  unfold tiny_encode. rewrite length_firstn, length_map. f_equal.
  induction s as [| c s IH]; cbn; [reflexivity | now rewrite IH].
Qed.

Lemma tiny_tokenizer_contract : tokenizer_contract tiny_tokenizer.
Proof.
  intros txt ml Hne Hml.
  eexists; split; [reflexivity |].
  unfold tiny_encoding; cbn [input_ids size0 size1 map length].
  unfold list_max; cbn [fold_right].
  rewrite tiny_encode_length, Nat.max_0_r.
  assert (1 <= String.length txt)%nat
    by (destruct txt; [contradiction | cbn; lia]).
  repeat split; lia.
Qed.

Lemma tiny_model_contract (hidden maxpos : nat) :
  model_contract (tiny_model hidden maxpos).
Proof.
  intros enc Hfit; cbn in *.
  apply Nat.leb_le in Hfit. rewrite Hfit.
  eexists; repeat split.
Qed.

Lemma tiny_model_rowwise (hidden maxpos : nat) :
  rowwise (tiny_model hidden maxpos).
Proof.
  intros enc1 enc2 out1 out2 b1 b2 H1 H2 [Hids _]; cbn in H1, H2.
  destruct (size1 (input_ids enc1) <=? maxpos)%nat; [| discriminate].
  destruct (size1 (input_ids enc2) <=? maxpos)%nat; [| discriminate].
  injection H1 as <-; injection H2 as <-; unfold tiny_hidden; cbn.
  assert (Hw : size1 (input_ids enc1) = size1 (input_ids enc2)).
  { apply (f_equal (@length Z)) in Hids.
    unfold row in Hids. now rewrite !length_map, !length_seq in Hids. }
  repeat split; [exact Hw |].
  intros s h Hs.
  apply (f_equal (fun l => nth_error l s)) in Hids.
  unfold row in Hids. rewrite !nth_error_map in Hids.
  rewrite !nth_error_nth' with (d := O) in Hids
    by (rewrite length_seq; lia).
  rewrite !seq_nth in Hids by lia. cbn in Hids.
  now injection Hids as ->.
Qed.

(** ** Single-text embedding *)

(** C1: for a loaded model and tokenizer that keep their contracts, every
    non-empty text and every [max_length] from 1 to the model's maximum
    position count, [/embed] answers with a vector that has as many
    entries as the model's hidden size, whose entry [h] is the arithmetic
    mean over the sequence positions of the last hidden state at [h], and
    with [dimension] equal to the length of that vector. *)
Theorem embed_text_mean_pooled_vector {F} `{Scalar F}
  (g : Globals F) (mdl : ModelT F) (tok : TokenizerT) (txt : string) (ml : Z) :
  model g = Some mdl ->
  tokenizer g = Some tok ->
  tokenizer_contract tok ->
  model_contract mdl ->
  txt <> "" ->
  1 <= ml <= Z.of_nat (max_position_embeddings mdl) ->
  exists enc out response,
    tok (Single txt) (Some ml) = inr enc /\
    forward mdl enc = inr out /\
    embed_text (mk_EmbeddingRequest txt (Some ml)) g = (inr response, g) /\
    length (embedding response) = hidden_size mdl /\
    (forall h, (h < hidden_size mdl)%nat ->
       nth_error (embedding response) h
       = Some (arithmetic_mean (along_dim1 out 0 h))) /\
    dimension response = len (embedding response).
Proof.
  intros Hm Ht Ctok Cmdl Hne [Hlo Hhi].
  destruct (Ctok txt ml Hne Hlo) as (enc & Etok & Hrows & Hpos & Hcut).
  destruct (Cmdl enc) as (out & Efwd & Hd0 & Hd1 & Hd2); [lia |].
  exists enc, out, (mk_EmbeddingResponse (pooled out 0) (len (pooled out 0))).
  repeat split; try assumption.
  - apply embed_text_returns; cbn [text max_length].
    apply generate_embedding_pooled with (mdl := mdl) (tok := tok) (enc := enc);
      try assumption.
    rewrite Hd0, Hrows. discriminate.
  - cbn [embedding]. now rewrite length_pooled.
  - intros h Hh; cbn [embedding]. apply nth_error_pooled. now rewrite Hd2.
Qed.

Lemma embed_text_mean_pooled_vector_witness :
  exists enc out response,
    tiny_tokenizer (Single "ab") (Some 8) = inr enc /\
    forward (tiny_model 2 8) enc = inr out /\
    embed_text (mk_EmbeddingRequest "ab" (Some 8)) tiny_globals
    = (inr response, tiny_globals) /\
    length (embedding response) = hidden_size (tiny_model 2 8) /\
    (forall h, (h < hidden_size (tiny_model 2 8))%nat ->
       nth_error (embedding response) h
       = Some (arithmetic_mean (along_dim1 out 0 h))) /\
    dimension response = len (embedding response).
Proof.
  apply (embed_text_mean_pooled_vector tiny_globals (tiny_model 2 8)
           tiny_tokenizer "ab" 8).
  - reflexivity.
  - reflexivity.
  - exact tiny_tokenizer_contract.
  - exact (tiny_model_contract 2 8).
  - discriminate.
  - cbn; lia.
Defined.

(** ** Batch embedding *)

(** C2: for a list of N >= 1 texts that the tokenizer encodes as N rows
    and the model maps to N rows of hidden states, [/embed/batch] answers
    with exactly N vectors, the vector at index [i] being the pooled
    hidden state of row [i], the row of the [i]-th text, and with [count]
    equal to N. *)
Theorem embed_batch_one_vector_per_text {F} `{Scalar F}
  (g : Globals F) (mdl : ModelT F) (tok : TokenizerT)
  (txts : list string) (ml : option Z) (enc : BatchEncoding) (out : tensor3 F) :
  model g = Some mdl ->
  tokenizer g = Some tok ->
  txts <> [] ->
  tok (Batch txts) ml = inr enc ->
  size0 (input_ids enc) = length txts ->
  forward mdl enc = inr out ->
  dim0 out = size0 (input_ids enc) ->
  exists response,
    embed_batch (mk_BatchEmbeddingRequest txts ml) g = (inr response, g) /\
    length (embeddings response) = length txts /\
    (forall i, (i < length txts)%nat ->
       nth_error (embeddings response) i = Some (pooled out i)) /\
    count response = len txts.
Proof.
  intros Hm Ht Hne Etok Hrows Efwd Hd0.
  pose proof (generate_batch_embeddings_pooled g mdl tok Hm Ht txts ml enc out
                Etok Efwd) as E.
  rewrite Hd0, Hrows in E.
  eexists; split; [| split; [| split]].
  - apply embed_batch_returns; [exact Hne | exact E].
  - cbn [embeddings]. now rewrite length_map, length_seq.
  - intros i Hi; cbn [embeddings].
    rewrite nth_error_map, nth_error_nth' with (d := O)
      by (rewrite length_seq; exact Hi).
    now rewrite seq_nth.
  - cbn [count]. unfold len. now rewrite length_map, length_seq.
Qed.

Lemma embed_batch_one_vector_per_text_witness :
  exists response,
    embed_batch (mk_BatchEmbeddingRequest ["ab"; "abcd"] (Some 8)) tiny_globals
    = (inr response, tiny_globals) /\
    length (embeddings response) = length ["ab"; "abcd"] /\
    (forall i, (i < length ["ab"; "abcd"])%nat ->
       nth_error (embeddings response) i
       = Some (pooled
                 (tiny_hidden 2 (tiny_encoding (Batch ["ab"; "abcd"]) (Some 8)))
                 i)) /\
    count response = len ["ab"; "abcd"].
Proof.
  apply (embed_batch_one_vector_per_text tiny_globals (tiny_model 2 8)
           tiny_tokenizer ["ab"; "abcd"] (Some 8)
           (tiny_encoding (Batch ["ab"; "abcd"]) (Some 8))).
  - reflexivity.
  - reflexivity.
  - discriminate.
  - reflexivity.
  - reflexivity.
  - reflexivity.
  - reflexivity.
Defined.

(** C3: an empty list is answered with no embeddings, count zero and the
    dimension 768, whatever model is loaded and without a call to the
    tokenizer or the model: with the two-unit encoder loaded the dimension
    is still 768, and a tokenizer that fails on every input is not
    reached. *)
Theorem embed_batch_empty_dimension_is_768 :
  model loaded_globals = Some (tiny_model 2 8) /\
  hidden_size (tiny_model 2 8) = 2%nat /\
  embed_batch (mk_BatchEmbeddingRequest [] (Some 512)) loaded_globals
  = (inr (mk_BatchEmbeddingResponse [] 768 0), loaded_globals) /\
  embed_batch (mk_BatchEmbeddingRequest [] (Some 512)) broken_globals
  = (inr (mk_BatchEmbeddingResponse [] 768 0), broken_globals).
Proof. repeat split. Qed.

(** ** Failures *)

(** C4: before the model is loaded, [/embed] and [/embed/batch] do not
    fail with the service-unavailable status: they answer with status 500
    and the detail "Model not loaded", where [/health] answers 503 with
    that detail, and [/embed/batch] on an empty list does not fail at
    all. *)
Theorem embed_before_load_is_not_503 :
  model (@initial_globals Q) = None /\
  tokenizer (@initial_globals Q) = None /\
  fst (health_check (@initial_globals Q))
  = inl (HTTPException 503 "Model not loaded") /\
  fst (embed_batch (mk_BatchEmbeddingRequest ["x = 1"] (Some 512))
         (@initial_globals Q))
  = inl (HTTPException 500 "Model not loaded") /\
  fst (embed_text (mk_EmbeddingRequest "x = 1" (Some 512)) (@initial_globals Q))
  = inl (HTTPException 500 "Model not loaded") /\
  ~ (exists detail,
       fst (embed_text (mk_EmbeddingRequest "x = 1" (Some 512))
              (@initial_globals Q))
       = inl (HTTPException 503 detail)) /\
  fst (embed_batch (mk_BatchEmbeddingRequest [] (Some 512))
         (@initial_globals Q))
  = inr (mk_BatchEmbeddingResponse [] 768 0).
Proof.
  repeat split. intros [detail E]. discriminate E.
Qed.

(** C5: when the tokenizer or the forward pass raises [e] on the input of
    [/embed], or on the non-empty input of [/embed/batch], the handler
    answers with status 500 and the detail [str e]; nothing escapes the
    handler. *)
Theorem inference_exception_is_internal_error {F} `{Scalar F}
  (g : Globals F) (mdl : ModelT F) (tok : TokenizerT) (e : exn) :
  model g = Some mdl ->
  tokenizer g = Some tok ->
  (forall txt ml,
     raised_during_inference mdl tok (Single txt) ml e ->
     embed_text (mk_EmbeddingRequest txt ml) g
     = (inl (HTTPException 500 (str e)), g)) /\
  (forall txts ml,
     txts <> [] ->
     raised_during_inference mdl tok (Batch txts) ml e ->
     embed_batch (mk_BatchEmbeddingRequest txts ml) g
     = (inl (HTTPException 500 (str e)), g)).
Proof.
  intros Hm Ht; split.
  - intros txt ml Hraise.
    apply embed_text_reports; cbn [text max_length].
    now apply generate_embedding_raises with (mdl := mdl) (tok := tok).
  - intros txts ml Hne Hraise.
    apply embed_batch_reports; cbn [texts batch_max_length]; [exact Hne |].
    now apply generate_batch_embeddings_raises with (mdl := mdl) (tok := tok).
Qed.

Lemma inference_exception_is_internal_error_witness :
  embed_text (mk_EmbeddingRequest "x = 1" (Some 512)) broken_globals
  = (inl (HTTPException 500 "text input must be of type str"), broken_globals)
  /\
  embed_batch (mk_BatchEmbeddingRequest ["abcdefghijkl"] (Some 12)) tiny_globals
  = (inl (HTTPException 500 "sequence longer than the position table"),
     tiny_globals).
Proof.
  split.
  - apply (proj1 (inference_exception_is_internal_error broken_globals
                    (tiny_model 2 8) failing_tokenizer
                    (LibraryError "ValueError" "text input must be of type str")
                    eq_refl eq_refl)).
    left; reflexivity.
  - apply (proj2 (inference_exception_is_internal_error tiny_globals
                    (tiny_model 2 8) tiny_tokenizer
                    (LibraryError "RuntimeError"
                       "sequence longer than the position table")
                    eq_refl eq_refl)).
    + discriminate.
    + right. exists (tiny_encoding (Batch ["abcdefghijkl"]) (Some 12)).
      split; reflexivity.
Defined.

(** ** Reported dimension and model name *)

(** C7: with the two-unit encoder loaded, [/health], [/embed] and
    [/embed/batch] on a non-empty list all report the dimension 2, and
    [/embed/batch] on an empty list reports 768. *)
Theorem empty_batch_dimension_differs_from_health :
  fst (health_check loaded_globals)
  = inr (mk_HealthResponse "healthy" "microsoft/codebert-base" "cpu" 2) /\
  fst (embed_text (mk_EmbeddingRequest "ab" (Some 8)) loaded_globals)
  = inr (mk_EmbeddingResponse [195 # 2; 197 # 2]%Q 2) /\
  fst (embed_batch (mk_BatchEmbeddingRequest ["ab"; "abcd"] (Some 8))
         loaded_globals)
  = inr (mk_BatchEmbeddingResponse
           [[197 # 4; 201 # 4]; [394 # 4; 398 # 4]]%Q 2 2) /\
  fst (embed_batch (mk_BatchEmbeddingRequest [] (Some 8)) loaded_globals)
  = inr (mk_BatchEmbeddingResponse [] 768 0).
Proof. repeat split. Qed.

(** C8: with [MODEL_NAME] set to "tiny/encoder", [load_model] loads the
    encoder the hub holds under that name, and [/health] then reports the
    model "microsoft/codebert-base", with the device and the dimension of
    the loaded encoder. *)
Theorem health_reports_default_model_name :
  getenv custom_environ "MODEL_NAME" "microsoft/codebert-base" = "tiny/encoder"
  /\
  AutoModel_from_pretrained tiny_hub "tiny/encoder" = inr (tiny_model 2 8) /\
  fst (load_model custom_environ no_accelerator tiny_hub initial_globals)
  = inr (tiny_model 2 8, tiny_tokenizer) /\
  model loaded_globals = Some (tiny_model 2 8) /\
  fst (health_check loaded_globals)
  = inr (mk_HealthResponse "healthy" "microsoft/codebert-base" "cpu" 2).
Proof. repeat split. Qed.

(** ** Padding *)

(** What does hold of padding: the pooled vector is the mean over every
    sequence position of the row; for an encoder that treats rows
    independently, a text gets the same vector in a batch as on its own
    when its row in the batch holds the same tokens under the same mask,
    that is, when the batch adds no padding to it. *)
Lemma pooled_vector_same_without_added_padding {F} `{Scalar F}
  (g : Globals F) (mdl : ModelT F) (tok : TokenizerT)
  (txt : string) (txts : list string) (ml : option Z) (i : nat)
  (enc1 encB : BatchEncoding) (out1 outB : tensor3 F) :
  model g = Some mdl ->
  tokenizer g = Some tok ->
  rowwise mdl ->
  tok (Single txt) ml = inr enc1 ->
  forward mdl enc1 = inr out1 ->
  dim0 out1 <> O ->
  tok (Batch txts) ml = inr encB ->
  forward mdl encB = inr outB ->
  (i < dim0 outB)%nat ->
  same_row enc1 0 encB i ->
  exists v vs,
    generate_embedding txt ml g = (inr v, g) /\
    generate_batch_embeddings txts ml g = (inr vs, g) /\
    nth_error vs i = Some v /\
    v = pooled outB i.
Proof.
  intros Hm Ht Hrw Etok1 Efwd1 Hrows1 EtokB EfwdB Hi Hsame.
  destruct (Hrw enc1 encB out1 outB O i Efwd1 EfwdB Hsame)
    as (Hd1 & Hd2 & Hat).
  assert (Hpool : pooled out1 0 = pooled outB i).
  { unfold pooled. rewrite Hd2. apply map_ext; intro h.
    f_equal. unfold along_dim1. rewrite <- Hd1.
    apply map_ext_in; intros s Hs. apply in_seq in Hs. apply Hat. lia. }
  exists (pooled out1 0), (map (pooled outB) (seq 0 (dim0 outB))).
  repeat split.
  - now apply generate_embedding_pooled with (mdl := mdl) (tok := tok)
                                             (enc := enc1).
  - now apply generate_batch_embeddings_pooled with (mdl := mdl) (tok := tok)
                                                    (enc := encB).
  - rewrite nth_error_map, nth_error_nth' with (d := O)
      by (rewrite length_seq; exact Hi).
    rewrite seq_nth by exact Hi. cbn. now rewrite Hpool.
  - exact Hpool.
Qed.

Lemma pooled_vector_same_without_added_padding_witness :
  exists v vs,
    generate_embedding "abcd" (Some 8) tiny_globals = (inr v, tiny_globals) /\
    generate_batch_embeddings ["ab"; "abcd"] (Some 8) tiny_globals
    = (inr vs, tiny_globals) /\
    nth_error vs 1 = Some v /\
    v = pooled (tiny_hidden 2 (tiny_encoding (Batch ["ab"; "abcd"]) (Some 8))) 1.
Proof.
  apply (pooled_vector_same_without_added_padding tiny_globals (tiny_model 2 8)
           tiny_tokenizer "abcd" ["ab"; "abcd"] (Some 8) 1
           (tiny_encoding (Single "abcd") (Some 8))
           (tiny_encoding (Batch ["ab"; "abcd"]) (Some 8))
           (tiny_hidden 2 (tiny_encoding (Single "abcd") (Some 8)))).
  - reflexivity.
  - reflexivity.
  - exact (tiny_model_rowwise 2 8).
  - reflexivity.
  - reflexivity.
  - discriminate.
  - reflexivity.
  - reflexivity.
  - cbn; lia.
  - split; reflexivity.
Defined.

(** C9: the pooled vector is not invariant to padding.  "ab" on its own
    is pooled over its two tokens; next to "abcd" it is pooled over its two
    tokens and two masked padding positions, which gives another vector,
    for an encoder that treats rows independently. *)
Theorem padding_changes_pooled_vector :
  row (input_ids (tiny_encoding (Single "ab") (Some 8))) 0 = [97; 98] /\
  row (input_ids (tiny_encoding (Batch ["ab"; "abcd"]) (Some 8))) 0
  = [97; 98; tiny_pad_id; tiny_pad_id] /\
  row (attention_mask (tiny_encoding (Batch ["ab"; "abcd"]) (Some 8))) 0
  = [1; 1; 0; 0] /\
  fst (generate_embedding "ab" (Some 8) tiny_globals)
  = inr [195 # 2; 197 # 2]%Q /\
  fst (generate_batch_embeddings ["ab"; "abcd"] (Some 8) tiny_globals)
  = inr [[197 # 4; 201 # 4]; [394 # 4; 398 # 4]]%Q /\
  ~ (195 # 2 == 197 # 4)%Q.
Proof.
  repeat split. intro E. vm_compute in E. discriminate E.
Qed.

(** ** The root route *)

(** C10: [GET /] answers on every state of the globals, loaded or not,
    with the service name "CodeBERT Embedding Service", the version
    "1.0.0" and the paths "/health", "/embed" and "/embed/batch" under
    "endpoints"; it does not fail, its answer does not depend on the
    globals, and it leaves them as they are. *)
Theorem root_is_constant {F} `{Scalar F} (g g' : Globals F) :
  handle GET_root g
  = (RootResponse
       (inr (JObject
               [("service", JString "CodeBERT Embedding Service");
                ("version", JString "1.0.0");
                ("endpoints",
                 JObject [("health", JString "/health");
                          ("embed", JString "/embed");
                          ("embed_batch", JString "/embed/batch")])])),
     g) /\
  fst (handle GET_root g) = fst (handle GET_root g') /\
  fst (handle GET_root (@initial_globals F)) = fst (handle GET_root g).
Proof. repeat split. Qed.

(** * Further properties of the service *)

(** ** What a returned value tells about the call *)

Lemma generate_embedding_inv {F} `{Scalar F} txt ml (g g' : Globals F) v :
  generate_embedding txt ml g = (inr v, g') ->
  exists mdl tok enc out,
    model g = Some mdl /\ tokenizer g = Some tok /\
    tok (Single txt) ml = inr enc /\ forward mdl enc = inr out /\
    dim0 out <> O /\ v = pooled out 0 /\ g' = g.
Proof.
  unfold generate_embedding, bind, get_model, get_tokenizer, get_device,
    lift, raise, first_row, ret.
  destruct (model g) as [mdl |], (tokenizer g) as [tok |]; try discriminate.
  destruct (tok (Single txt) ml) as [e | enc] eqn:Etok; [discriminate |].
  rewrite to_device_same.
  destruct (forward mdl enc) as [e | out] eqn:Efwd; [discriminate |].
  cbn [mean_dim1 size0].
  destruct (dim0 out) as [| n] eqn:Ed; [discriminate |].
  intro E; injection E as <- <-.
  exists mdl, tok, enc, out. rewrite row_mean_dim1, Ed.
  repeat split; try assumption. discriminate.
Qed.

Lemma generate_batch_embeddings_inv {F} `{Scalar F} txts ml (g g' : Globals F) vs :
  generate_batch_embeddings txts ml g = (inr vs, g') ->
  exists mdl tok enc out,
    model g = Some mdl /\ tokenizer g = Some tok /\
    tok (Batch txts) ml = inr enc /\ forward mdl enc = inr out /\
    vs = map (pooled out) (seq 0 (dim0 out)) /\ g' = g.
Proof.
  unfold generate_batch_embeddings, bind, get_model, get_tokenizer, get_device,
    lift, raise, ret.
  destruct (model g) as [mdl |], (tokenizer g) as [tok |]; try discriminate.
  destruct (tok (Batch txts) ml) as [e | enc] eqn:Etok; [discriminate |].
  rewrite to_device_same.
  destruct (forward mdl enc) as [e | out] eqn:Efwd; [discriminate |].
  intro E; injection E as <- <-.
  exists mdl, tok, enc, out. rewrite tolist_mean_dim1.
  repeat split; assumption.
Qed.

Lemma serve_responses {F} `{Scalar F} (rqs : list Request) (g : Globals F) :
  fst (serve rqs g) = map (fun rq => fst (handle rq g)) rqs.
Proof.
  induction rqs as [| rq rest IH]; [reflexivity |].
  cbn [serve map].
  pose proof (handle_keeps_globals rq g) as K.
  destruct (handle rq g) as [r g1]; cbn in K; subst g1.
  destruct (serve rest g) as [rs g2]; cbn in IH |- *. now rewrite IH.
Qed.

Lemma health_check_loaded_is_not_http {F} `{Scalar F} (g : Globals F) mdl s d :
  model g = Some mdl ->
  fst (health_check g) <> inl (HTTPException s d).
Proof.
  intro Hm.
  unfold health_check, bind, get_model, propagate, try_except, raise,
    get_device, ret.
  rewrite Hm.
  destruct (generate_embedding "test" (Some 512) g) as [[e | v] g'];
    cbn; discriminate.
Qed.

(** ** Model initialisation *)

(** [load_model] returns a model and a tokenizer exactly when the hub
    delivers both under the configured name and [model.to(device)] and
    [model.eval()] return; the globals then hold these two and the
    preferred device, whatever they held before. *)
Theorem load_model_success_iff {F} (env : environ) (hw : Hardware)
  (hub : Hub F) (g g' : Globals F) (mdl : ModelT F) (tok : TokenizerT) :
  load_model env hw hub g = (inr (mdl, tok), g') <->
  AutoTokenizer_from_pretrained hub
    (getenv env "MODEL_NAME" "microsoft/codebert-base") = inr tok /\
  AutoModel_from_pretrained hub
    (getenv env "MODEL_NAME" "microsoft/codebert-base") = inr mdl /\
  model_to mdl
    (Some (if cuda_is_available hw then cuda
           else if mps_is_available hw then mps else cpu)) = inr tt /\
  model_eval mdl = inr tt /\
  g' = mk_globals (Some mdl) (Some tok)
         (Some (if cuda_is_available hw then cuda
                else if mps_is_available hw then mps else cpu)).
Proof.
  rewrite load_model_eq; cbv zeta. split.
  - destruct (AutoTokenizer_from_pretrained hub _) as [e | tok'];
      [discriminate |].
    destruct (AutoModel_from_pretrained hub _) as [e | mdl'];
      [discriminate |].
    destruct (model_to mdl' _) as [e | []] eqn:Eto; [discriminate |].
    destruct (model_eval mdl') as [e | []] eqn:Eev; [discriminate |].
    intro E; injection E as <- <- <-. repeat split; assumption.
  - intros (Etok & Emdl & Eto & Eev & ->).
    now rewrite Etok, Emdl, Eto, Eev.
Qed.

(** When the model was delivered and [model.to(device)] or [model.eval()]
    raises, [load_model] raises that exception with all three globals
    assigned. *)
Theorem load_model_placement_failure {F} (env : environ) (hw : Hardware)
  (hub : Hub F) (g : Globals F) (mdl : ModelT F) (tok : TokenizerT) (e : exn) :
  AutoTokenizer_from_pretrained hub
    (getenv env "MODEL_NAME" "microsoft/codebert-base") = inr tok ->
  AutoModel_from_pretrained hub
    (getenv env "MODEL_NAME" "microsoft/codebert-base") = inr mdl ->
  model_to mdl
    (Some (if cuda_is_available hw then cuda
           else if mps_is_available hw then mps else cpu)) = inl e \/
  (model_to mdl
     (Some (if cuda_is_available hw then cuda
            else if mps_is_available hw then mps else cpu)) = inr tt /\
   model_eval mdl = inl e) ->
  load_model env hw hub g
  = (inl e,
     mk_globals (Some mdl) (Some tok)
       (Some (if cuda_is_available hw then cuda
              else if mps_is_available hw then mps else cpu))).
Proof.
  intros Etok Emdl Hfail.
  rewrite load_model_eq; cbv zeta. rewrite Etok, Emdl.
  destruct Hfail as [Eto | [Eto Eev]]; rewrite Eto; [reflexivity |].
  now rewrite Eev.
Qed.

Lemma load_model_placement_failure_witness :
  load_model custom_environ no_accelerator unplaceable_hub initial_globals
  = (inl (LibraryError "RuntimeError" "out of memory"),
     mk_globals (Some unplaceable_model) (Some tiny_tokenizer) (Some cpu)).
Proof.
  apply (load_model_placement_failure custom_environ no_accelerator
           unplaceable_hub initial_globals unplaceable_model tiny_tokenizer).
  - reflexivity.
  - reflexivity.
  - left; reflexivity.
Defined.

(** When the tokenizer cannot be loaded, [load_model] raises that
    exception: the device is assigned, the model and tokenizer globals
    keep what they held. *)
Theorem load_model_tokenizer_failure {F} (env : environ) (hw : Hardware)
  (hub : Hub F) (g : Globals F) (e : exn) :
  AutoTokenizer_from_pretrained hub
    (getenv env "MODEL_NAME" "microsoft/codebert-base") = inl e ->
  load_model env hw hub g
  = (inl e,
     mk_globals (model g) (tokenizer g)
       (Some (if cuda_is_available hw then cuda
              else if mps_is_available hw then mps else cpu))).
Proof.
  intro Etok.
  rewrite load_model_eq; cbv zeta. now rewrite Etok.
Qed.

Lemma load_model_tokenizer_failure_witness :
  load_model unknown_environ no_accelerator tiny_hub initial_globals
  = (inl (LibraryError "OSError" "not a valid model identifier"),
     mk_globals None None (Some cpu)).
Proof.
  apply (load_model_tokenizer_failure unknown_environ no_accelerator tiny_hub
           initial_globals).
  reflexivity.
Defined.

(** When the tokenizer loads and the model does not, [load_model] raises
    the model's exception and leaves the tokenizer assigned without a
    model. *)
Theorem load_model_model_failure {F} (env : environ) (hw : Hardware)
  (hub : Hub F) (g : Globals F) (tok : TokenizerT) (e : exn) :
  AutoTokenizer_from_pretrained hub
    (getenv env "MODEL_NAME" "microsoft/codebert-base") = inr tok ->
  AutoModel_from_pretrained hub
    (getenv env "MODEL_NAME" "microsoft/codebert-base") = inl e ->
  load_model env hw hub g
  = (inl e,
     mk_globals (model g) (Some tok)
       (Some (if cuda_is_available hw then cuda
              else if mps_is_available hw then mps else cpu))).
Proof.
  intros Etok Emdl.
  rewrite load_model_eq; cbv zeta. now rewrite Etok, Emdl.
Qed.

Lemma load_model_model_failure_witness :
  load_model custom_environ no_accelerator weights_missing_hub initial_globals
  = (inl (LibraryError "OSError" "no file named pytorch_model.bin"),
     mk_globals None (Some tiny_tokenizer) (Some cpu)).
Proof.
  apply (load_model_model_failure custom_environ no_accelerator
           weights_missing_hub initial_globals tiny_tokenizer).
  - reflexivity.
  - reflexivity.
Defined.

(** ** Serving *)

(** Serving a run of requests leaves the globals as they are, and every
    request gets the response it would get as the only request. *)
Theorem serve_independent {F} `{Scalar F} (rqs : list Request) (g : Globals F) :
  serve rqs g = (map (fun rq => fst (handle rq g)) rqs, g).
Proof.
  pose proof (serve_responses rqs g) as R.
  pose proof (serve_keeps_globals rqs g) as K.
  destruct (serve rqs g) as [rs g']; cbn in R, K. now subst.
Qed.

(** An application that started answers every request, and never answers
    [/health] with an [HTTPException]: the model is loaded by then. *)
Theorem lifespan_health_is_never_unavailable {F} `{Scalar F}
  (env : environ) (hw : Hardware) (hub : Hub F) (rqs : list Request)
  (rs : list (Response F)) :
  lifespan env hw hub rqs = inr rs ->
  length rs = length rqs /\
  forall s d, ~ In (HealthCheckResponse (inl (HTTPException s d))) rs.
Proof.
  unfold lifespan.
  destruct (load_model env hw hub initial_globals) as [[e | loaded] g] eqn:E;
    [discriminate |].
  intro R; injection R as <-.
  destruct (load_model_loads_both env hw hub _ _ _ E) as [Hm _].
  rewrite serve_responses. split; [now rewrite length_map |].
  intros s d Hin. apply in_map_iff in Hin as (rq & Hrq & _).
  destruct rq as [| | request | request]; cbn [handle] in Hrq.
  - discriminate.
  - pose proof (health_check_loaded_is_not_http g (fst loaded) s d Hm) as N.
    destruct (health_check g) as [r g1]; cbn in Hrq, N. congruence.
  - destruct (embed_text request g); discriminate.
  - destruct (embed_batch request g); discriminate.
Qed.

Lemma lifespan_health_is_never_unavailable_witness :
  length (fst (serve [GET_health; GET_root] loaded_globals))
  = length [GET_health; GET_root] /\
  forall s d,
    ~ In (HealthCheckResponse (inl (HTTPException s d)))
        (fst (serve [GET_health; GET_root] loaded_globals)).
Proof.
  apply (lifespan_health_is_never_unavailable custom_environ no_accelerator
           tiny_hub [GET_health; GET_root]).
  reflexivity.
Defined.

(** ** Health reporting *)

(** [/health] raises an [HTTPException] exactly when the model global is
    unset, and then it is the 503 "Model not loaded". *)
Theorem health_check_http_exception_iff {F} `{Scalar F} (g : Globals F)
  (s : Z) (d : string) :
  fst (health_check g) = inl (HTTPException s d) <->
  model g = None /\ s = 503 /\ d = "Model not loaded".
Proof.
  split.
  - destruct (model g) as [mdl |] eqn:Hm.
    + intro E. now destruct (health_check_loaded_is_not_http g mdl s d Hm).
    + unfold health_check, bind, get_model, raise. rewrite Hm; cbn.
      intro E; injection E as <- <-. repeat split.
  - intros (Hm & -> & ->).
    unfold health_check, bind, get_model, raise. now rewrite Hm.
Qed.

(** [/health] has no [try]: with the model loaded, an exception of the
    probe embedding leaves the handler uncaught, be it the missing
    tokenizer or a failure of the tokenizer or of the forward pass. *)
Theorem health_check_probe_failure_escapes {F} `{Scalar F}
  (g : Globals F) (mdl : ModelT F) :
  model g = Some mdl ->
  (tokenizer g = None ->
   health_check g = (inl (Uncaught (RuntimeError "Model not loaded")), g)) /\
  (forall tok e,
     tokenizer g = Some tok ->
     raised_during_inference mdl tok (Single "test") (Some 512) e ->
     health_check g = (inl (Uncaught e), g)).
Proof.
  intro Hm; split.
  - intro Ht.
    unfold health_check, bind, get_model, propagate, try_except, raise.
    rewrite Hm.
    now rewrite (generate_embedding_not_loaded g "test" (Some 512)
                   (or_intror Ht)).
  - intros tok e Ht Hraise.
    unfold health_check, bind, get_model, propagate, try_except, raise.
    rewrite Hm.
    now rewrite (generate_embedding_raises g mdl tok Hm Ht "test" (Some 512) e
                   Hraise).
Qed.

Lemma health_check_probe_failure_escapes_witness :
  health_check broken_globals
  = (inl (Uncaught (LibraryError "ValueError" "text input must be of type str")),
     broken_globals).
Proof.
  apply (proj2 (health_check_probe_failure_escapes broken_globals
                  (tiny_model 2 8) eq_refl) failing_tokenizer).
  - reflexivity.
  - left; reflexivity.
Defined.

(** With a tokenizer and a model that keep their contracts and at least
    512 positions, [/health] reports "healthy", the device global and the
    hidden size of the loaded model. *)
Theorem health_check_reports_hidden_size {F} `{Scalar F}
  (g : Globals F) (mdl : ModelT F) (tok : TokenizerT) :
  model g = Some mdl ->
  tokenizer g = Some tok ->
  tokenizer_contract tok ->
  model_contract mdl ->
  (512 <= max_position_embeddings mdl)%nat ->
  exists response,
    health_check g = (inr response, g) /\
    health_status response = "healthy" /\
    health_device response = str_device (device g) /\
    health_dimension response = Z.of_nat (hidden_size mdl).
Proof.
  intros Hm Ht Ctok Cmdl Hpos.
  destruct (Ctok "test" 512) as (enc & Etok & Hrows & Hlo & Hhi);
    [discriminate | lia |].
  destruct (Cmdl enc) as (out & Efwd & Hd0 & Hd1 & Hd2); [lia |].
  assert (E : generate_embedding "test" (Some 512) g = (inr (pooled out 0), g)).
  { apply generate_embedding_pooled with (mdl := mdl) (tok := tok) (enc := enc);
      try assumption.
    rewrite Hd0, Hrows. discriminate. }
  eexists; split; [exact (health_check_returns g mdl _ Hm E) |].
  cbn. repeat split. unfold len. now rewrite length_pooled, Hd2.
Qed.

Lemma health_check_reports_hidden_size_witness :
  exists response,
    health_check default_globals = (inr response, default_globals) /\
    health_status response = "healthy" /\
    health_device response = str_device (device default_globals) /\
    health_dimension response = Z.of_nat (hidden_size (tiny_model 768 512)).
Proof.
  apply (health_check_reports_hidden_size default_globals (tiny_model 768 512)
           tiny_tokenizer).
  - reflexivity.
  - reflexivity.
  - exact tiny_tokenizer_contract.
  - exact (tiny_model_contract 768 512).
  - cbn; lia.
Defined.

(** After a [load_model] that returned, a [/health] that answers names
    the device by the loader's preference: "cuda" when CUDA is available,
    else "mps" when MPS is, else "cpu". *)
Theorem health_check_device_after_load {F} `{Scalar F}
  (env : environ) (hw : Hardware) (hub : Hub F) (g0 g g' : Globals F)
  (loaded : ModelT F * TokenizerT) (response : HealthResponse) :
  load_model env hw hub g0 = (inr loaded, g) ->
  health_check g = (inr response, g') ->
  health_device response
  = (if cuda_is_available hw then "cuda"
     else if mps_is_available hw then "mps" else "cpu").
Proof.
  intros Eload Ehealth.
  assert (Hdev : device g
                 = Some (if cuda_is_available hw then cuda
                         else if mps_is_available hw then mps else cpu)).
  { revert Eload. rewrite load_model_eq; cbv zeta.
    destruct (AutoTokenizer_from_pretrained hub _); [discriminate |].
    destruct (AutoModel_from_pretrained hub _) as [e | m]; [discriminate |].
    destruct (model_to m _); [discriminate |].
    destruct (model_eval m); [discriminate |].
    intro E; injection E as <- <-; reflexivity. }
  revert Ehealth.
  unfold health_check, bind, get_model, propagate, try_except, raise,
    get_device, ret.
  destruct (model g); [| discriminate].
  pose proof (generate_embedding_keeps_globals "test" (Some 512) g) as K.
  destruct (generate_embedding "test" (Some 512) g) as [[e | v] g1];
    [discriminate |].
  cbn in K; subst g1.
  intro E; injection E as <- <-. cbn. rewrite Hdev.
  now destruct (cuda_is_available hw), (mps_is_available hw).
Qed.

Lemma health_check_device_after_load_witness :
  health_device
    (mk_HealthResponse "healthy" "microsoft/codebert-base" "cpu" 2)
  = (if cuda_is_available no_accelerator then "cuda"
     else if mps_is_available no_accelerator then "mps" else "cpu").
Proof.
  apply (health_check_device_after_load custom_environ no_accelerator tiny_hub
           initial_globals loaded_globals loaded_globals
           (tiny_model 2 8, tiny_tokenizer)).
  - reflexivity.
  - reflexivity.
Defined.

(** ** The inference handlers *)

(** A response of [/embed] is always the pooled first row of the hidden
    state of the request's text: the model and the tokenizer were loaded,
    both calls returned, [dimension] is the hidden width of that state,
    and the globals are as before. *)
Theorem embed_text_response_inv {F} `{Scalar F} (request : EmbeddingRequest)
  (g g' : Globals F) (response : EmbeddingResponse F) :
  embed_text request g = (inr response, g') ->
  exists mdl tok enc out,
    model g = Some mdl /\ tokenizer g = Some tok /\
    tok (Single (text request)) (max_length request) = inr enc /\
    forward mdl enc = inr out /\
    embedding response = pooled out 0 /\
    dimension response = Z.of_nat (dim2 out) /\
    g' = g.
Proof.
  unfold embed_text, try_except, bind, ret, raise.
  destruct (generate_embedding (text request) (max_length request) g)
    as [[e | v] g1] eqn:E; [discriminate |].
  intro R; injection R as <- <-.
  destruct (generate_embedding_inv _ _ _ _ _ E)
    as (mdl & tok & enc & out & Hm & Ht & Etok & Efwd & _ & -> & ->).
  exists mdl, tok, enc, out. cbn [embedding dimension].
  repeat split; try assumption. unfold len. now rewrite length_pooled.
Qed.

Lemma embed_text_response_inv_witness :
  exists mdl tok enc out,
    model tiny_globals = Some mdl /\ tokenizer tiny_globals = Some tok /\
    tok (Single "ab") (Some 8) = inr enc /\
    forward mdl enc = inr out /\
    [195 # 2; 197 # 2]%Q = pooled out 0 /\
    2 = Z.of_nat (dim2 out) /\
    tiny_globals = tiny_globals.
Proof.
  apply (embed_text_response_inv (mk_EmbeddingRequest "ab" (Some 8))
           tiny_globals tiny_globals
           (mk_EmbeddingResponse [195 # 2; 197 # 2]%Q 2)).
  reflexivity.
Defined.

Lemma generate_embedding_error_inv {F} `{Scalar F} txt ml (g g' : Globals F) e :
  generate_embedding txt ml g = (inl e, g') ->
  g' = g /\
  (inference_failure g (Single txt) ml e \/ no_first_row g (Single txt) ml e).
Proof.
  unfold generate_embedding, bind, get_model, get_tokenizer, get_device,
    lift, raise, first_row, ret, inference_failure, no_first_row,
    raised_during_inference.
  destruct (model g) as [mdl |] eqn:Hm, (tokenizer g) as [tok |] eqn:Ht;
    try (intro E; injection E as <- <-; split; [reflexivity |];
         left; left; split; [tauto | reflexivity]).
  destruct (tok (Single txt) ml) as [e0 | enc] eqn:Etok.
  - intro E; injection E as <- <-. split; [reflexivity |].
    left; right. exists mdl, tok. repeat split. now left.
  - rewrite to_device_same.
    destruct (forward mdl enc) as [e0 | out] eqn:Efwd.
    + intro E; injection E as <- <-. split; [reflexivity |].
      left; right. exists mdl, tok. repeat split. right. now exists enc.
    + cbn [mean_dim1 size0].
      destruct (dim0 out) as [| n] eqn:Ed; [| discriminate].
      intro E; injection E as <- <-. split; [reflexivity |].
      right. exists mdl, tok, enc, out. repeat split; assumption.
Qed.

Lemma generate_batch_embeddings_error_inv {F} `{Scalar F}
  txts ml (g g' : Globals F) e :
  generate_batch_embeddings txts ml g = (inl e, g') ->
  g' = g /\ inference_failure g (Batch txts) ml e.
Proof.
  unfold generate_batch_embeddings, bind, get_model, get_tokenizer, get_device,
    lift, raise, ret, inference_failure, raised_during_inference.
  destruct (model g) as [mdl |] eqn:Hm, (tokenizer g) as [tok |] eqn:Ht;
    try (intro E; injection E as <- <-; split; [reflexivity |];
         left; split; [tauto | reflexivity]).
  destruct (tok (Batch txts) ml) as [e0 | enc] eqn:Etok.
  - intro E; injection E as <- <-. split; [reflexivity |].
    right. exists mdl, tok. repeat split. now left.
  - rewrite to_device_same.
    destruct (forward mdl enc) as [e0 | out] eqn:Efwd; [| discriminate].
    intro E; injection E as <- <-. split; [reflexivity |].
    right. exists mdl, tok. repeat split. right. now exists enc.
Qed.

(** Whatever goes wrong in [/embed] or [/embed/batch], the handler raises
    an [HTTPException] with status 500 whose detail is [str e] of the
    exception [e] that the inference helper raised: the helper's own
    "Model not loaded" while the model or the tokenizer is missing, the
    exception of the tokenizer or of the forward pass, or for [/embed] the
    index error on a hidden state without rows.  No other status, nothing
    uncaught, and the globals are as before. *)
Theorem inference_handlers_fail_with_500 {F} `{Scalar F}
  (g : Globals F) (err : handler_error) :
  (forall request g',
     embed_text request g = (inl err, g') ->
     g' = g /\
     exists e,
       err = HTTPException 500 (str e) /\
       generate_embedding (text request) (max_length request) g = (inl e, g) /\
       (inference_failure g (Single (text request)) (max_length request) e \/
        no_first_row g (Single (text request)) (max_length request) e)) /\
  (forall request g',
     embed_batch request g = (inl err, g') ->
     g' = g /\ texts request <> [] /\
     exists e,
       err = HTTPException 500 (str e) /\
       generate_batch_embeddings (texts request) (batch_max_length request) g
       = (inl e, g) /\
       inference_failure g (Batch (texts request)) (batch_max_length request) e).
Proof.
  split; intros request g'.
  - unfold embed_text, try_except, bind, ret, raise.
    destruct (generate_embedding (text request) (max_length request) g)
      as [[e | v] g1] eqn:E; [| discriminate].
    destruct (generate_embedding_error_inv _ _ _ _ _ E) as [-> Hcause].
    intro R; injection R as <- <-. split; [reflexivity |].
    exists e. repeat split; assumption.
  - unfold embed_batch, try_except, bind, ret, raise.
    destruct (len (texts request) =? 0) eqn:Elen; [discriminate |].
    destruct (generate_batch_embeddings (texts request)
                (batch_max_length request) g) as [[e | vs] g1] eqn:E;
      [| discriminate].
    destruct (generate_batch_embeddings_error_inv _ _ _ _ _ E) as [-> Hcause].
    intro R; injection R as <- <-. split; [reflexivity |].
    split; [intro Hnil; rewrite Hnil in Elen; discriminate Elen |].
    exists e. repeat split; assumption.
Qed.

Lemma inference_handlers_fail_with_500_witness :
  (exists e,
     HTTPException 500 "Model not loaded" = HTTPException 500 (str e) /\
     generate_embedding "x = 1" (Some 512) (@initial_globals Q)
     = (inl e, initial_globals) /\
     (inference_failure (@initial_globals Q) (Single "x = 1") (Some 512) e \/
      no_first_row (@initial_globals Q) (Single "x = 1") (Some 512) e)) /\
  (exists e,
     HTTPException 500 "text input must be of type str"
     = HTTPException 500 (str e) /\
     generate_batch_embeddings ["x = 1"] (Some 512) broken_globals
     = (inl e, broken_globals) /\
     inference_failure broken_globals (Batch ["x = 1"]) (Some 512) e).
Proof.
  split.
  - apply (proj1 (inference_handlers_fail_with_500 (@initial_globals Q)
                    (HTTPException 500 "Model not loaded"))
             (mk_EmbeddingRequest "x = 1" (Some 512)) initial_globals).
    reflexivity.
  - apply (proj2 (inference_handlers_fail_with_500 broken_globals
                    (HTTPException 500 "text input must be of type str"))
             (mk_BatchEmbeddingRequest ["x = 1"] (Some 512)) broken_globals).
    reflexivity.
Defined.

(** A response of [/embed/batch] is consistent in itself: [count] is the
    number of vectors, every vector has [dimension] entries, an empty
    request gets no vector, and the globals are as before. *)
Theorem embed_batch_response_consistent {F} `{Scalar F}
  (request : BatchEmbeddingRequest) (g g' : Globals F)
  (response : BatchEmbeddingResponse F) :
  embed_batch request g = (inr response, g') ->
  count response = len (embeddings response) /\
  Forall (fun v => len v = batch_dimension response) (embeddings response) /\
  (texts request = [] -> embeddings response = []) /\
  g' = g.
Proof.
  unfold embed_batch, try_except, bind, ret, raise.
  destruct (len (texts request) =? 0) eqn:Elen.
  - intro R; injection R as <- <-. cbn. repeat split; constructor.
  - destruct (generate_batch_embeddings (texts request)
                (batch_max_length request) g) as [[e | vs] g1] eqn:E;
      [discriminate |].
    intro R; injection R as <- <-.
    destruct (generate_batch_embeddings_inv _ _ _ _ _ E)
      as (mdl & tok & enc & out & _ & _ & _ & _ & -> & ->).
    cbn [count embeddings batch_dimension]. repeat split.
    + assert (Hall : Forall (fun v : list F => len v = Z.of_nat (dim2 out))
                       (map (pooled out) (seq 0 (dim0 out)))).
      { apply Forall_forall. intros v Hin.
        apply in_map_iff in Hin as (b & <- & _).
        unfold len. now rewrite length_pooled. }
      destruct (dim0 out) as [| n]; [constructor |].
      cbn [seq map] in *. unfold len at 2. now rewrite length_pooled.
    + intro Hnil. rewrite Hnil in Elen. discriminate Elen.
Qed.

Lemma embed_batch_response_consistent_witness :
  2 = len [[197 # 4; 201 # 4]; [394 # 4; 398 # 4]]%Q /\
  Forall (fun v => len v = 2) [[197 # 4; 201 # 4]; [394 # 4; 398 # 4]]%Q /\
  (["ab"; "abcd"] = [] -> [[197 # 4; 201 # 4]; [394 # 4; 398 # 4]]%Q = []) /\
  tiny_globals = tiny_globals.
Proof.
  apply (embed_batch_response_consistent
           (mk_BatchEmbeddingRequest ["ab"; "abcd"] (Some 8))
           tiny_globals tiny_globals
           (mk_BatchEmbeddingResponse
              [[197 # 4; 201 # 4]; [394 # 4; 398 # 4]]%Q 2 2)).
  reflexivity.
Defined.

(** For a non-empty list that the tokenizer encodes in at least one row
    within the model's position table, [/embed/batch] reports the hidden
    size of the loaded model, and every vector has that many entries. *)
Theorem embed_batch_reports_hidden_size {F} `{Scalar F}
  (g : Globals F) (mdl : ModelT F) (tok : TokenizerT)
  (txts : list string) (ml : option Z) (enc : BatchEncoding) :
  model g = Some mdl ->
  tokenizer g = Some tok ->
  model_contract mdl ->
  txts <> [] ->
  tok (Batch txts) ml = inr enc ->
  size0 (input_ids enc) <> O ->
  (size1 (input_ids enc) <= max_position_embeddings mdl)%nat ->
  exists response,
    embed_batch (mk_BatchEmbeddingRequest txts ml) g = (inr response, g) /\
    batch_dimension response = Z.of_nat (hidden_size mdl) /\
    Forall (fun v => length v = hidden_size mdl) (embeddings response).
Proof.
  intros Hm Ht Cmdl Hne Etok Hrows Hfit.
  destruct (Cmdl enc Hfit) as (out & Efwd & Hd0 & Hd1 & Hd2).
  pose proof (generate_batch_embeddings_pooled g mdl tok Hm Ht txts ml enc out
                Etok Efwd) as E.
  eexists; split; [apply embed_batch_returns; [exact Hne | exact E] |].
  cbn [batch_dimension embeddings]. split.
  - rewrite Hd0. destruct (size0 (input_ids enc)); [contradiction |].
    cbn [seq map]. unfold len. now rewrite length_pooled, Hd2.
  - apply Forall_forall. intros v Hin.
    apply in_map_iff in Hin as (b & <- & _).
    now rewrite length_pooled.
Qed.

Lemma embed_batch_reports_hidden_size_witness :
  exists response,
    embed_batch (mk_BatchEmbeddingRequest ["ab"; "abcd"] (Some 8)) tiny_globals
    = (inr response, tiny_globals) /\
    batch_dimension response = Z.of_nat (hidden_size (tiny_model 2 8)) /\
    Forall (fun v => length v = hidden_size (tiny_model 2 8))
      (embeddings response).
Proof.
  apply (embed_batch_reports_hidden_size tiny_globals (tiny_model 2 8)
           tiny_tokenizer ["ab"; "abcd"] (Some 8)
           (tiny_encoding (Batch ["ab"; "abcd"]) (Some 8))).
  - reflexivity.
  - reflexivity.
  - exact (tiny_model_contract 2 8).
  - discriminate.
  - reflexivity.
  - discriminate.
  - apply Nat.leb_le. reflexivity.
Defined.

(** ** The build-time download *)

Lemma download_model_printed (env : environ)
  (snapshot_download : string -> exn + string) (exists_ : string -> bool)
  (cache_dir : string) (p : printed) :
  snapshot_download (getenv env "MODEL_NAME" "microsoft/codebert-base")
  = inr cache_dir ->
  In p (fst (download_model env snapshot_download exists_)) <->
  In p [Downloading (getenv env "MODEL_NAME" "microsoft/codebert-base");
        DownloadingFiles; DownloadSucceeded; CacheDirectory cache_dir;
        DownloadComplete (getenv env "MODEL_NAME" "microsoft/codebert-base")]
  \/ (missing_files exists_ cache_dir = [] /\ p = RequiredFilesVerified)
  \/ (missing_files exists_ cache_dir <> [] /\
      p = FilesNotFound (missing_files exists_ cache_dir))
  \/ (exists f, found_model_file exists_ cache_dir = Some f /\
                p = FoundWeights f)
  \/ (found_model_file exists_ cache_dir = None /\
      (p = WeightsNotFound \/ p = WeightsNotFoundNote)).
Proof.
  intro Esd. unfold download_model. rewrite Esd. cbn [fst].
  destruct (missing_files exists_ cache_dir) as [| m ms] eqn:Em;
    destruct (found_model_file exists_ cache_dir) as [f |] eqn:Ef;
    cbn [app In]; split; intro Hp;
    repeat match goal with
      | H : _ \/ _ |- _ => destruct H
      | H : _ /\ _ |- _ => destruct H
      | H : exists _, _ |- _ => destruct H
      | H : False |- _ => contradiction
      | H : Some _ = Some _ |- _ => injection H as ->
      end;
    subst; try congruence; try solve [intuition eauto].
  all: right; right; left; split; [discriminate | reflexivity].
Qed.

(** [download_model] returns [True] exactly when [snapshot_download]
    returns, whatever the cache holds, and ends in [sys.exit(1)] exactly
    when it raises; it never returns [False]. *)
Theorem download_model_ending (env : environ)
  (snapshot_download : string -> exn + string) (exists_ : string -> bool) :
  (snd (download_model env snapshot_download exists_) = Returned true <->
   exists cache_dir,
     snapshot_download (getenv env "MODEL_NAME" "microsoft/codebert-base")
     = inr cache_dir) /\
  (snd (download_model env snapshot_download exists_) = SystemExit 1 <->
   exists e,
     snapshot_download (getenv env "MODEL_NAME" "microsoft/codebert-base")
     = inl e) /\
  snd (download_model env snapshot_download exists_) <> Returned false.
Proof.
  unfold download_model.
  destruct (snapshot_download _) as [e | cache_dir]; cbn [snd];
    repeat split; try discriminate; eauto;
    intros [x Hx]; discriminate Hx.
Qed.

(** When the download fails, everything printed after the two
    announcements goes to standard error, completion is not announced,
    and the cache is not looked at. *)
Theorem download_model_failure_output (env : environ)
  (snapshot_download : string -> exn + string) (exists_ exists' : string -> bool)
  (e : exn) :
  snapshot_download (getenv env "MODEL_NAME" "microsoft/codebert-base") = inl e ->
  download_model env snapshot_download exists_
  = download_model env snapshot_download exists' /\
  Forall (fun p => to_stderr p = true)
    (skipn 2 (fst (download_model env snapshot_download exists_))) /\
  (forall name,
     ~ In (DownloadComplete name)
         (fst (download_model env snapshot_download exists_))) /\
  In (DownloadFailed e) (fst (download_model env snapshot_download exists_)).
Proof.
  intro Esd. unfold download_model. rewrite Esd. cbn.
  repeat split.
  - repeat constructor.
  - intros name Hin.
    repeat (destruct Hin as [Hin | Hin]; [discriminate Hin |]).
    exact Hin.
  - auto.
Qed.

Lemma download_model_failure_output_witness :
  download_model [] tiny_snapshot_download tiny_cache
  = download_model [] tiny_snapshot_download (fun _ => false) /\
  Forall (fun p => to_stderr p = true)
    (skipn 2 (fst (download_model [] tiny_snapshot_download tiny_cache))) /\
  (forall name,
     ~ In (DownloadComplete name)
         (fst (download_model [] tiny_snapshot_download tiny_cache))) /\
  In (DownloadFailed (LibraryError "RepositoryNotFoundError" "404 Client Error"))
    (fst (download_model [] tiny_snapshot_download tiny_cache)).
Proof.
  apply (download_model_failure_output [] tiny_snapshot_download tiny_cache
           (fun _ => false)).
  reflexivity.
Defined.

(** After a download, the weights file that is announced is the first of
    [pytorch_model.bin], [model.safetensors], [tf_model.h5] that exists in
    the cache directory: it exists, every file before it in that order
    does not, and no second one is announced.  The warning appears exactly
    when none of the three exists. *)
Theorem download_model_weights_report (env : environ)
  (snapshot_download : string -> exn + string) (exists_ : string -> bool)
  (cache_dir : string) :
  snapshot_download (getenv env "MODEL_NAME" "microsoft/codebert-base")
  = inr cache_dir ->
  (forall f,
     In (FoundWeights f) (fst (download_model env snapshot_download exists_)) ->
     exists before after,
       model_files = before ++ f :: after /\
       exists_ (path_join cache_dir f) = true /\
       forall f', In f' before -> exists_ (path_join cache_dir f') = false) /\
  (forall f f',
     In (FoundWeights f) (fst (download_model env snapshot_download exists_)) ->
     In (FoundWeights f') (fst (download_model env snapshot_download exists_)) ->
     f = f') /\
  (In WeightsNotFound (fst (download_model env snapshot_download exists_)) <->
   forall f, In f model_files -> exists_ (path_join cache_dir f) = false).
Proof.
  intro Esd.
  assert (Hfound : forall f,
             In (FoundWeights f)
               (fst (download_model env snapshot_download exists_)) ->
             found_model_file exists_ cache_dir = Some f).
  { intros f Hin.
    apply (download_model_printed env snapshot_download exists_ cache_dir _ Esd)
      in Hin.
    destruct Hin as [Hin | [[_ Hin] | [[_ Hin] | [(f0 & Ef & Hin) | [_ Hin]]]]].
    - repeat (destruct Hin as [Hin | Hin]; [discriminate Hin |]).
      contradiction.
    - discriminate Hin.
    - discriminate Hin.
    - now injection Hin as ->.
    - destruct Hin as [Hin | Hin]; discriminate Hin. }
  repeat split.
  - intros f Hin. apply Hfound in Hin. revert Hin.
    unfold found_model_file, model_files. cbn [find].
    destruct (exists_ (path_join cache_dir "pytorch_model.bin")) eqn:E1.
    { intro E; injection E as <-.
      exists [], ["model.safetensors"; "tf_model.h5"].
      repeat split; [exact E1 | intros f' []]. }
    destruct (exists_ (path_join cache_dir "model.safetensors")) eqn:E2.
    { intro E; injection E as <-.
      exists ["pytorch_model.bin"], ["tf_model.h5"].
      repeat split; [exact E2 |].
      intros f' [<- | []]; exact E1. }
    destruct (exists_ (path_join cache_dir "tf_model.h5")) eqn:E3;
      [| discriminate].
    intro E; injection E as <-.
    exists ["pytorch_model.bin"; "model.safetensors"], [].
    repeat split; [exact E3 |].
    intros f' [<- | [<- | []]]; assumption.
  - intros f f' Hf Hf'. apply Hfound in Hf, Hf'. congruence.
  - intros Hin f Hf.
    apply (download_model_printed env snapshot_download exists_ cache_dir _ Esd)
      in Hin.
    destruct Hin as [Hin | [[_ Hin] | [[_ Hin] | [(f0 & _ & Hin) | [Hnone _]]]]].
    + repeat (destruct Hin as [Hin | Hin]; [discriminate Hin |]).
      contradiction.
    + discriminate Hin.
    + discriminate Hin.
    + discriminate Hin.
    + exact (find_none _ _ Hnone f Hf).
  - intro Hnone.
    apply (download_model_printed env snapshot_download exists_ cache_dir _ Esd).
    do 4 right. split; [| now left].
    destruct (found_model_file exists_ cache_dir) as [f |] eqn:Ef;
      [| reflexivity].
    apply find_some in Ef as [Hf Hex]. rewrite (Hnone f Hf) in Hex.
    discriminate Hex.
Qed.

Lemma download_model_weights_report_witness :
  In (FoundWeights "model.safetensors")
    (fst (download_model custom_environ tiny_snapshot_download tiny_cache)) /\
  tiny_cache (path_join "/cache/tiny" "tf_model.h5") = true /\
  ~ In (FoundWeights "tf_model.h5")
      (fst (download_model custom_environ tiny_snapshot_download tiny_cache)).
Proof.
  pose proof (download_model_weights_report custom_environ
                tiny_snapshot_download tiny_cache "/cache/tiny" eq_refl)
    as (_ & Honce & _).
  assert (Hin : In (FoundWeights "model.safetensors")
                  (fst (download_model custom_environ tiny_snapshot_download
                          tiny_cache)))
    by (cbn; tauto).
  repeat split.
  - exact Hin.
  - intro Hin'. specialize (Honce _ _ Hin Hin'). discriminate Honce.
Defined.

Lemma files_not_found_inv (env : environ)
  (snapshot_download : string -> exn + string) (exists_ : string -> bool)
  (cache_dir : string) (missing : list string) :
  snapshot_download (getenv env "MODEL_NAME" "microsoft/codebert-base")
  = inr cache_dir ->
  In (FilesNotFound missing)
    (fst (download_model env snapshot_download exists_)) ->
  missing = missing_files exists_ cache_dir /\ missing <> [].
Proof.
  intros Esd Hin.
  apply (download_model_printed env snapshot_download exists_ cache_dir _ Esd)
    in Hin.
  destruct Hin as [Hin | [[_ Hin] | [[Hne Hin] | [(f0 & _ & Hin) | [_ Hin]]]]].
  - repeat (destruct Hin as [Hin | Hin]; [discriminate Hin |]).
    contradiction.
  - discriminate Hin.
  - injection Hin as ->. now split.
  - discriminate Hin.
  - destruct Hin as [Hin | Hin]; discriminate Hin.
Qed.

Lemma missing_files_spec (exists_ : string -> bool) (cache_dir f : string) :
  In f (missing_files exists_ cache_dir) <->
  In f required_files /\ exists_ (path_join cache_dir f) = false.
Proof.
  unfold missing_files. rewrite filter_In. now rewrite negb_true_iff.
Qed.

(** After a download, the check of the required files is reported as
    passed exactly when [config.json] and [tokenizer_config.json] both
    exist in the cache directory; otherwise the warning lists exactly the
    required files that do not exist.  Either way the function returns
    [True]. *)
Theorem download_model_required_files_report (env : environ)
  (snapshot_download : string -> exn + string) (exists_ : string -> bool)
  (cache_dir : string) :
  snapshot_download (getenv env "MODEL_NAME" "microsoft/codebert-base")
  = inr cache_dir ->
  (In RequiredFilesVerified
     (fst (download_model env snapshot_download exists_)) <->
   forall f, In f required_files -> exists_ (path_join cache_dir f) = true) /\
  (forall missing,
     In (FilesNotFound missing)
       (fst (download_model env snapshot_download exists_)) ->
     missing <> [] /\
     forall f,
       In f missing <->
       In f required_files /\ exists_ (path_join cache_dir f) = false) /\
  snd (download_model env snapshot_download exists_) = Returned true.
Proof.
  intro Esd. split; [split | split].
  - intros Hin f Hf.
    apply (download_model_printed env snapshot_download exists_ cache_dir _ Esd)
      in Hin.
    destruct Hin as [Hin | [[Hnil _] | [[_ Hin] | [(f0 & _ & Hin) | [_ Hin]]]]].
    + repeat (destruct Hin as [Hin | Hin]; [discriminate Hin |]).
      contradiction.
    + destruct (exists_ (path_join cache_dir f)) eqn:Ex; [reflexivity |].
      assert (Hf' : In f (missing_files exists_ cache_dir))
        by (apply missing_files_spec; now split).
      rewrite Hnil in Hf'. contradiction.
    + discriminate Hin.
    + discriminate Hin.
    + destruct Hin as [Hin | Hin]; discriminate Hin.
  - intro Hall.
    apply (download_model_printed env snapshot_download exists_ cache_dir _ Esd).
    right; left. split; [| reflexivity].
    destruct (missing_files exists_ cache_dir) as [| f fs] eqn:Em;
      [reflexivity |].
    assert (Hf : In f (missing_files exists_ cache_dir))
      by (rewrite Em; now left).
    apply missing_files_spec in Hf as [Hreq Hex].
    rewrite (Hall f Hreq) in Hex. discriminate Hex.
  - intros missing Hin.
    destruct (files_not_found_inv env snapshot_download exists_ cache_dir
                missing Esd Hin) as [-> Hne].
    split; [exact Hne |]. intro f. apply missing_files_spec.
  - unfold download_model. now rewrite Esd.
Qed.

Lemma download_model_required_files_report_witness :
  In (FilesNotFound ["tokenizer_config.json"])
    (fst (download_model custom_environ tiny_snapshot_download tiny_cache)) /\
  (In "tokenizer_config.json" ["tokenizer_config.json"] <->
   In "tokenizer_config.json" required_files /\
   tiny_cache (path_join "/cache/tiny" "tokenizer_config.json") = false) /\
  snd (download_model custom_environ tiny_snapshot_download tiny_cache)
  = Returned true.
Proof.
  pose proof (download_model_required_files_report custom_environ
                tiny_snapshot_download tiny_cache "/cache/tiny" eq_refl)
    as (_ & Hmissing & Hret).
  assert (Hin : In (FilesNotFound ["tokenizer_config.json"])
                  (fst (download_model custom_environ tiny_snapshot_download
                          tiny_cache)))
    by (cbn; tauto).
  split; [exact Hin | split; [| exact Hret]].
  exact (proj2 (Hmissing _ Hin) "tokenizer_config.json").
Defined.

(** ** The download and the loader agree *)

Lemma load_model_inv {F} (env : environ) (hw : Hardware) (hub : Hub F)
  (g g' : Globals F) (mdl : ModelT F) (tok : TokenizerT) :
  load_model env hw hub g = (inr (mdl, tok), g') ->
  AutoTokenizer_from_pretrained hub
    (getenv env "MODEL_NAME" "microsoft/codebert-base") = inr tok /\
  AutoModel_from_pretrained hub
    (getenv env "MODEL_NAME" "microsoft/codebert-base") = inr mdl.
Proof.
  rewrite load_model_eq; cbv zeta.
  destruct (AutoTokenizer_from_pretrained hub _) as [e | tok'];
    [discriminate |].
  destruct (AutoModel_from_pretrained hub _) as [e | mdl']; [discriminate |].
  destruct (model_to mdl' _); [discriminate |].
  destruct (model_eval mdl'); [discriminate |].
  intro E; injection E as <- <- <-; split; reflexivity.
Qed.

(** In one environment, the repository whose download [download_model]
    announces as complete is the one [load_model] loads its tokenizer and
    its model from. *)
Theorem download_and_load_same_model {F} (env : environ)
  (snapshot_download : string -> exn + string) (exists_ : string -> bool)
  (hw : Hardware) (hub : Hub F) (g g' : Globals F)
  (mdl : ModelT F) (tok : TokenizerT) (name : string) :
  In (DownloadComplete name)
    (fst (download_model env snapshot_download exists_)) ->
  load_model env hw hub g = (inr (mdl, tok), g') ->
  (exists cache_dir, snapshot_download name = inr cache_dir) /\
  AutoTokenizer_from_pretrained hub name = inr tok /\
  AutoModel_from_pretrained hub name = inr mdl.
Proof.
  intros Hin Eload.
  destruct (load_model_inv env hw hub g g' mdl tok Eload) as [Etok Emdl].
  destruct (snapshot_download
              (getenv env "MODEL_NAME" "microsoft/codebert-base"))
    as [e | cache_dir] eqn:Esd.
  - exfalso. revert Hin. unfold download_model. rewrite Esd. cbn.
    intro Hin.
    repeat (destruct Hin as [Hin | Hin]; [discriminate Hin |]).
    exact Hin.
  - apply (download_model_printed env snapshot_download exists_ cache_dir _ Esd)
      in Hin.
    destruct Hin as [Hin | [[_ Hin] | [[_ Hin] | [(f0 & _ & Hin) | [_ Hin]]]]].
    + destruct Hin as [Hin | [Hin | [Hin | [Hin | [Hin | []]]]]];
        try discriminate Hin.
      injection Hin as <-. repeat split; try assumption. now exists cache_dir.
    + discriminate Hin.
    + discriminate Hin.
    + discriminate Hin.
    + destruct Hin as [Hin | Hin]; discriminate Hin.
Qed.

Lemma download_and_load_same_model_witness :
  (exists cache_dir, tiny_snapshot_download "tiny/encoder" = inr cache_dir) /\
  AutoTokenizer_from_pretrained tiny_hub "tiny/encoder" = inr tiny_tokenizer /\
  AutoModel_from_pretrained tiny_hub "tiny/encoder" = inr (tiny_model 2 8).
Proof.
  apply (download_and_load_same_model custom_environ tiny_snapshot_download
           tiny_cache no_accelerator tiny_hub initial_globals loaded_globals).
  - cbn; tauto.
  - reflexivity.
Defined.
